(** * Garmin recovery-score demo: a shallow embedding of the Python sources

    The development follows the three Python modules of the repository:

    - [Garmin/Garmin_info.py]: the [/training-status] handlers;
    - [Garmin/front_end_data_display/nice_front_end_of_data.py]: the
      [SAMPLE_DATA] fixture, the JSON lookup endpoint and the HTML page;
    - [Garmin/Garmin_data/data_creation/generate_data.py]: the random
      fixture generator.

    Python [float]s are IEEE-754 binary64 values; they are modelled by
    [spec_float] of the Standard Library at precision 53 and maximal
    exponent 1024, so NaN, the infinities and the two zeros are part of the
    model.  Python [dict]s keep insertion order and are association lists.
    A Python [str] is the string of the bytes of its UTF-8 encoding, so
    equality, membership in a dictionary and concatenation are those of the
    [str]; the parsing of dates is modelled on ASCII text. *)

From Stdlib Require Import ZArith List String Ascii Bool Lia.
From Stdlib Require Import Floats.SpecFloat.
Import ListNotations.

Local Open Scope string_scope.
Local Open Scope Z_scope.

(** ** Python floats *)

Module PyFloat.

Definition prec : Z := 53.
Definition emax : Z := 1024.

Definition float : Type := spec_float.

(** The binary64 values are the [spec_float]s with a canonical mantissa. *)
Definition valid (x : float) : bool := valid_binary prec emax x.

(** [float(n)] for an [int] literal of the source ([0], [20], [72], ...). *)
Definition of_int (n : Z) : float := binary_normalize prec emax n 0 false.

(** A literal with one decimal digit, [n / 10] correctly rounded: both
    [n] and [10] are exact, so the quotient is the binary64 value nearest to
    the decimal, which is what the Python parser produces for [9.1]. *)
Definition tenths (n : Z) : float := SFdiv prec emax (of_int n) (of_int 10).

(** Python's rich comparisons on floats: every comparison with NaN is
    [False]. *)
Definition lt (x y : float) : bool := SFltb x y.
Definition gt (x y : float) : bool := SFltb y x.
Definition le (x y : float) : bool := SFleb x y.
Definition ge (x y : float) : bool := SFleb y x.

(** [n / 2^k] rounded to the nearest integer, ties to even ([0 <= k]). *)
Definition div_pow2_half_even (n k : Z) : Z :=
  let q := n / 2 ^ k in
  let r := n mod 2 ^ k in
  match 2 * r ?= 2 ^ k with
  | Lt => q
  | Gt => q + 1
  | Eq => if Z.even q then q else q + 1
  end.

(** The binary64 value nearest to [d / 10], for an integer [0 <= d], with
    sign [s]. *)
Definition nearest_tenth (s : bool) (d : Z) : float :=
  match d with
  | Zpos p => SFdiv prec emax (S754_finite s p 0) (of_int 10)
  | _ => S754_zero s
  end.

(** The built-in [round(x, 1)].  NaN, the infinities and the zeros round to
    themselves.  For a finite [x] CPython rounds the exact binary value to
    one decimal place (ties to even) and converts that decimal back to the
    nearest binary64: with [d] the integer nearest to [10 * |x|], the result
    is [d / 10] correctly rounded, with the sign of [x]. *)
Definition round1 (x : float) : float :=
  match x with
  | S754_finite s m e =>
      nearest_tenth s
        (if 0 <=? e then 10 * Zpos m * 2 ^ e
         else div_pow2_half_even (10 * Zpos m) (- e))
  | _ => x
  end.

(** The exact value of a finite float, counted in units of [2^-1074], the
    least positive binary64: an integer for every valid float. *)
Definition ulps (x : float) : option Z :=
  match x with
  | S754_zero _ => Some 0
  | S754_finite s m e => Some (cond_Zopp s (Zpos m * 2 ^ (e + 1074)))
  | _ => None
  end.

Definition is_nan (x : float) : bool :=
  match x with S754_nan => true | _ => false end.

Definition nan : float := S754_nan.

End PyFloat.

Import PyFloat.

(** ** Outcomes of a request handler

    A FastAPI handler either returns its value or raises an exception.
    Handlers are written in a state-and-exception monad over the state of
    the process ([World]): a handler that never touches it leaves it as it
    found it. *)

(** The exceptions the sources can raise.  [HTTPException] is FastAPI's;
    the others are Python's built-in ones, which FastAPI turns into a 500
    response. *)
Inductive exn : Type :=
| HTTPException (status_code : Z) (detail : string)
| KeyError (key : string)
| IndexError
| ValueError
| OverflowError.

Inductive outcome (A : Type) : Type :=
| Return (a : A)
| Raise (e : exn).

Arguments Return {A} a.
Arguments Raise {A} e.

Definition Handler (World A : Type) : Type := World -> outcome A * World.

Definition ret {World A} (a : A) : Handler World A := fun w => (Return a, w).

Definition raise {World A} (e : exn) : Handler World A :=
  fun w => (Raise e, w).

Definition bind {World A B} (c : Handler World A) (k : A -> Handler World B)
  : Handler World B :=
  fun w => match c w with
           | (Return a, w') => k a w'
           | (Raise e, w') => (Raise e, w')
           end.

Declare Scope handler_scope.
Delimit Scope handler_scope with handler.
Notation "x <- c ;; k" := (bind c (fun x => k))
  (at level 61, c at next level, right associativity) : handler_scope.

(** ** Garmin/Garmin_info.py *)

Module Garmin_info.

(** [class RecoveryScoreRequest(BaseModel)] *)
Record RecoveryScoreRequest : Type := mkRecoveryScoreRequest {
  recovery_score : float
}.

(** [class TrainingResponse(BaseModel)] *)
Record TrainingResponse : Type := mkTrainingResponse {
  training_status : string;
  recovery_hours : float;
  message : string
}.

(** The JSON object FastAPI sends for a [TrainingResponse]: one member per
    declared field, under the field's name, in declaration order. *)
Inductive json : Type :=
| JString (s : string)
| JNumber (x : float).

Definition model_dump (r : TrainingResponse) : list (string * json) :=
  [ ("training_status", JString (training_status r));
    ("recovery_hours", JNumber (recovery_hours r));
    ("message", JString (message r)) ].

Definition field_names (r : TrainingResponse) : list string :=
  map fst (model_dump r).

Section Handlers.

Context {World : Type}.

(** [@app.post("/training-status")] *)
Definition get_training_status (request : RecoveryScoreRequest)
  : Handler World TrainingResponse :=
  if lt (recovery_score request) (of_int 0)
     || gt (recovery_score request) (of_int 72)
  then raise (HTTPException 400
                "Recovery score must be between 0 and 72 hours")
  else
    let '(training_status, message) :=
      if gt (recovery_score request) (of_int 20)
      then ("cancelled",
            "No training tomorrow, all training will be cancelled.")
      else ("continue", "Training will continue as scheduled.") in
    ret (mkTrainingResponse training_status (recovery_score request) message).

(** [@app.get("/training-status")] *)
Definition get_training_status_get (recovery_score : float)
  : Handler World TrainingResponse :=
  let request := mkRecoveryScoreRequest recovery_score in
  get_training_status request.

End Handlers.

(** The specification's [evaluate]: the outcome of the POST handler on a
    request carrying the score. *)
Definition evaluate (s : float) : outcome TrainingResponse :=
  fst (get_training_status (World := unit) (mkRecoveryScoreRequest s) tt).

(** The specification's valid range [[0, 72]], with Python's comparisons. *)
Definition in_valid_range (s : float) : bool :=
  le (of_int 0) s && le s (of_int 72).

End Garmin_info.


(** ** Python dictionaries

    A [dict] with string keys, in insertion order.  [d[k] = v] replaces the
    value of a key that is present, in place, and otherwise appends the
    pair. *)

Module PyDict.

Definition dict (V : Type) : Type := list (string * V).

Section Ops.

Context {V : Type}.

(** [k in d] *)
Fixpoint contains (k : string) (d : dict V) : bool :=
  match d with
  | [] => false
  | (k', _) :: d' => if String.eqb k k' then true else contains k d'
  end.

(** [d[k]]; [None] stands for [KeyError]. *)
Fixpoint get (k : string) (d : dict V) : option V :=
  match d with
  | [] => None
  | (k', v) :: d' => if String.eqb k k' then Some v else get k d'
  end.

(** [d[k] = v] *)
Fixpoint set (k : string) (v : V) (d : dict V) : dict V :=
  match d with
  | [] => [(k, v)]
  | (k', v') :: d' =>
      if String.eqb k k' then (k', v) :: d' else (k', v') :: set k v d'
  end.

(** [list(d.keys())] and [list(d.values())] *)
Definition keys (d : dict V) : list string := map fst d.
Definition values (d : dict V) : list V := map snd d.

End Ops.

End PyDict.

(** ** [datetime.date] *)

Module PyDate.

Record date : Type := mkdate { year : Z; month : Z; day : Z }.

Definition is_leap (y : Z) : bool :=
  (y mod 4 =? 0) && (negb (y mod 100 =? 0) || (y mod 400 =? 0)).

Definition days_in_month (y m : Z) : Z :=
  match m with
  | 1 | 3 | 5 | 7 | 8 | 10 | 12 => 31
  | 4 | 6 | 9 | 11 => 30
  | 2 => if is_leap y then 29 else 28
  | _ => 0
  end.

(** The constructor [date(y, m, d)]; [None] stands for [ValueError]. *)
Definition make_date (y m d : Z) : option date :=
  if (1 <=? y) && (y <=? 9999) && (1 <=? m) && (m <=? 12)
     && (1 <=? d) && (d <=? days_in_month y m)
  then Some (mkdate y m d) else None.

(** [a <= b] *)
Definition date_le (a b : date) : bool :=
  (year a <? year b)
  || ((year a =? year b)
      && ((month a <? month b)
          || ((month a =? month b) && (day a <=? day b)))).

(** [d + timedelta(days=1)]; [None] stands for [OverflowError], raised
    past [date.max]. *)
Definition add_one_day (d : date) : option date :=
  if day d <? days_in_month (year d) (month d)
  then Some (mkdate (year d) (month d) (day d + 1))
  else if month d <? 12
  then Some (mkdate (year d) (month d + 1) 1)
  else if year d <? 9999
  then Some (mkdate (year d + 1) 1 1)
  else None.

(** Decimal digits. *)
Definition digit (n : Z) : ascii := ascii_of_nat (Z.to_nat (48 + n mod 10)).

Definition two_digits (n : Z) : string :=
  String (digit (n / 10)) (String (digit n) EmptyString).

Definition four_digits (n : Z) : string :=
  String (digit (n / 1000)) (String (digit (n / 100)) (two_digits n)).

(** [%Y]: the year in decimal.  From 1000 on these are four digits on
    every platform; below, the C library decides, and glibc, which is
    followed here, does not pad (CPython 3.11 prints ['999']). *)
Definition year_text (n : Z) : string :=
  if n <? 10 then String (digit n) EmptyString
  else if n <? 100 then two_digits n
  else if n <? 1000 then String (digit (n / 100)) (two_digits n)
  else four_digits n.

(** Text made of ASCII characters only. *)
Fixpoint ascii_only (s : string) : bool :=
  match s with
  | EmptyString => true
  | String c s' => (nat_of_ascii c <? 128)%nat && ascii_only s'
  end.

(** The value of an ASCII digit.  Python's [strptime] also reads the other
    decimal digits of Unicode (its pattern is [\d]); they are not ASCII, and
    what is proved about a text that fails to parse is proved of ASCII text
    ([ascii_only]). *)
Definition digit_value (c : ascii) : option Z :=
  let n := Z.of_nat (nat_of_ascii c) in
  if (48 <=? n) && (n <=? 57) then Some (n - 48) else None.

(** [%B] *)
Definition month_name (m : Z) : string :=
  match m with
  | 1 => "January" | 2 => "February" | 3 => "March" | 4 => "April"
  | 5 => "May" | 6 => "June" | 7 => "July" | 8 => "August"
  | 9 => "September" | 10 => "October" | 11 => "November"
  | _ => "December"
  end.

(** [d.strftime("%Y-%m-%d")] *)
Definition strftime_Ymd (d : date) : string :=
  (year_text (year d) ++ "-" ++ two_digits (month d) ++ "-"
   ++ two_digits (day d))%string.

(** [d.strftime("%B %d, %Y")] *)
Definition strftime_BdY (d : date) : string :=
  (month_name (month d) ++ " " ++ two_digits (day d) ++ ", "
   ++ year_text (year d))%string.

(** The field of [%m]: [1[0-2]|0[1-9]|[1-9]]. *)
Definition parse_month (f : string) : option Z :=
  match f with
  | String a EmptyString =>
      match digit_value a with
      | Some n => if 1 <=? n then Some n else None
      | None => None
      end
  | String a (String b EmptyString) =>
      match digit_value a, digit_value b with
      | Some n1, Some n2 =>
          let n := 10 * n1 + n2 in
          if (1 <=? n) && (n <=? 12) then Some n else None
      | _, _ => None
      end
  | _ => None
  end.

(** The field of [%d]: [3[01]|[12]\d|0[1-9]|[1-9]| [1-9]]. *)
Definition parse_day (f : string) : option Z :=
  match f with
  | String a EmptyString =>
      match digit_value a with
      | Some n => if 1 <=? n then Some n else None
      | None => None
      end
  | String a (String b EmptyString) =>
      match (if Ascii.eqb a " " then Some 0 else digit_value a),
            digit_value b with
      | Some n1, Some n2 =>
          let n := 10 * n1 + n2 in
          if (1 <=? n) && (n <=? 31) then Some n else None
      | _, _ => None
      end
  | _ => None
  end.

(** [datetime.strptime(s, "%Y-%m-%d")] on ASCII text, as a date; [None]
    stands for [ValueError]: the text is four digits, a dash, the month
    field, a dash and the day field, and the three numbers must make a
    date. *)
Definition strptime_Ymd (s : string) : option date :=
  match s with
  | String y1 (String y2 (String y3 (String y4 (String "-" rest)))) =>
      match digit_value y1, digit_value y2, digit_value y3, digit_value y4
      with
      | Some a, Some b, Some c, Some d =>
          let y := 1000 * a + 100 * b + 10 * c + d in
          let fields :=
            match rest with
            | String m1 (String "-" dd) =>
                Some (String m1 EmptyString, dd)
            | String m1 (String m2 (String "-" dd)) =>
                Some (String m1 (String m2 EmptyString), dd)
            | _ => None
            end in
          match fields with
          | Some (mm, dd) =>
              match parse_month mm, parse_day dd with
              | Some m, Some d => make_date y m d
              | _, _ => None
              end
          | None => None
          end
      | _, _, _, _ => None
      end
  | _ => None
  end.

End PyDate.

(** ** The fixture records

    The inner dictionaries of both fixtures have the same four keys;
    they are records. *)

Record metrics : Type := mkmetrics {
  recovery_score : float;
  body_battery : float;
  sleep_hours : float;
  stress_level : Z
}.

(** ** Garmin/front_end_data_display/nice_front_end_of_data.py *)

Module Front_end.

Import PyDict PyDate.

(** The module's global [SAMPLE_DATA], as the module body creates it. *)
Definition SAMPLE_DATA : dict metrics :=
  [ ("2023-01-01", mkmetrics (tenths 91) (tenths 718) (tenths 81) 26);
    ("2023-01-02", mkmetrics (tenths 287) (tenths 754) (tenths 77) 22);
    ("2023-01-03", mkmetrics (tenths 569) (tenths 22) (tenths 76) 31);
    ("2023-01-04", mkmetrics (tenths 151) (tenths 524) (tenths 37) 49);
    ("2023-01-05", mkmetrics (tenths 206) (tenths 71) (tenths 45) 13);
    ("2023-01-06", mkmetrics (tenths 53) (tenths 122) (tenths 54) 78);
    ("2023-01-07", mkmetrics (tenths 656) (tenths 325) (tenths 58) 70) ].

(** The handlers run on the dictionary the global is bound to. *)
Definition World : Type := dict metrics.

Definition read_SAMPLE_DATA : Handler World (dict metrics) :=
  fun w => (Return w, w).

Definition lift {A} (o : option A) (e : exn) : Handler World A :=
  match o with
  | Some a => ret a
  | None => raise e
  end.

Local Open Scope handler_scope.

(** [@app.get("/api/dates")] *)
Definition get_dates : Handler World (list string) :=
  sample_data <- read_SAMPLE_DATA ;;
  ret (keys sample_data).

(** The value [get_data_for_date] returns: [{"date": ..., "data": ...}]. *)
Record FitnessDataResponse : Type := mkFitnessDataResponse {
  date_ : string;
  data_ : metrics
}.

(** [@app.get("/api/data/{date}")] *)
Definition get_data_for_date (date : string)
  : Handler World FitnessDataResponse :=
  sample_data <- read_SAMPLE_DATA ;;
  if negb (contains date sample_data)
  then raise (HTTPException 404 ("No data found for date " ++ date))
  else
    data <- lift (get date sample_data) (KeyError date) ;;
    ret (mkFitnessDataResponse date data).

(** The page of [get_visualization] is an f-string: constant HTML and CSS
    text around replacement fields.  The page is represented by the values
    of its replacement fields, in the order of the source. *)
Record option_tag : Type := mkoption_tag {
  option_value : string;
  option_selected : string;
  option_label : string
}.

Record card (A : Type) : Type := mkcard {
  card_class : string;
  card_value : A;
  card_desc : string
}.

Arguments mkcard {A} _ _ _.
Arguments card_class {A} _.
Arguments card_value {A} _.
Arguments card_desc {A} _.

Record page : Type := mkpage {
  display_date : string;
  options : list option_tag;
  recovery_card : card float;
  battery_card : card float;
  sleep_card : card float;
  stress_card : card Z
}.

(** [datetime.strptime(d, "%Y-%m-%d").strftime("%B %d, %Y")] *)
Definition format_date (d : string) : option string :=
  match strptime_Ymd d with
  | Some dt => Some (strftime_BdY dt)
  | None => None
  end.

(** The list comprehension over [SAMPLE_DATA] that builds the options. *)
Fixpoint render_options (date : string) (ds : list string)
  : option (list option_tag) :=
  match ds with
  | [] => Some []
  | d :: ds' =>
      match format_date d with
      | Some label =>
          match render_options date ds' with
          | Some tags =>
              Some (mkoption_tag d
                      (if String.eqb d date then "selected" else "")
                      label :: tags)
          | None => None
          end
      | None => None
      end
  end.

(** The two conditional expressions of a card, with thresholds [hi], [lo]. *)
Definition float_card (x : float) (hi lo : Z) (d_hi d_mid d_lo : string)
  : card float :=
  mkcard (if gt x (of_int hi) then "good"
          else if gt x (of_int lo) then "medium" else "")
         x
         (if gt x (of_int hi) then d_hi
          else if gt x (of_int lo) then d_mid else d_lo).

Definition stress_card_of (x : Z) : card Z :=
  mkcard (if x <? 30 then "good" else if x <? 60 then "medium" else "")
         x
         (if x <? 30 then "Low stress"
          else if x <? 60 then "Moderate stress" else "High stress").

(** [@app.get("/")] *)
Definition get_visualization (date : string) : Handler World page :=
  sample_data <- read_SAMPLE_DATA ;;
  date <- (if negb (contains date sample_data)
           then lift (nth_error (keys sample_data) 0) IndexError
           else ret date) ;;
  data <- lift (get date sample_data) (KeyError date) ;;
  display_date <- lift (format_date date) ValueError ;;
  options <- lift (render_options date (keys sample_data)) ValueError ;;
  ret (mkpage display_date options
         (float_card (recovery_score data) 50 25
            "Excellent recovery" "Average recovery" "Poor recovery")
         (float_card (body_battery data) 50 25
            "High energy levels" "Moderate energy" "Low energy levels")
         (float_card (sleep_hours data) 7 5
            "Well rested" "Adequate sleep" "Sleep deficit")
         (stress_card_of (stress_level data))).

(** The page built from the display date, the options and the metrics of
    the day: the value [get_visualization] returns at its last line. *)
Definition render_page (display_date : string) (options : list option_tag)
    (data : metrics) : page :=
  mkpage display_date options
    (float_card (recovery_score data) 50 25
       "Excellent recovery" "Average recovery" "Poor recovery")
    (float_card (body_battery data) 50 25
       "High energy levels" "Moderate energy" "Low energy levels")
    (float_card (sleep_hours data) 7 5
       "Well rested" "Adequate sleep" "Sleep deficit")
    (stress_card_of (stress_level data)).

(** The options of the page that carry the [selected] attribute. *)
Definition selected_options (p : page) : list option_tag :=
  filter (fun o => String.eqb (option_selected o) "selected") (options p).

End Front_end.

(** ** Garmin/Garmin_data/data_creation/generate_data.py *)

Module Generate_data.

Import PyDict PyDate.

Section Random.

(** The state of the [random] module and the two functions the source
    calls on it. *)
Variable RNG : Type.
Variable uniform : float -> float -> RNG -> float * RNG.
Variable randint : Z -> Z -> RNG -> Z * RNG.

(** What the documentation of [random] promises: [uniform(a, b)] is a
    float [N] with [a <= N <= b] when [a <= b], and [randint(a, b)] an
    integer [N] with [a <= N <= b]. *)
Definition uniform_contract : Prop :=
  forall a b g,
    valid a = true -> valid b = true -> le a b = true ->
    valid (fst (uniform a b g)) = true
    /\ le a (fst (uniform a b g)) = true
    /\ le (fst (uniform a b g)) b = true.

Definition randint_contract : Prop :=
  forall a b g, a <= b -> a <= fst (randint a b g) <= b.

Definition start_date : date := mkdate 2023 1 1.
Definition end_date : date := mkdate 2023 3 1.

(** The [while current_day <= end_date] loop; [fuel] bounds the number of
    tests of its condition.  [None] is fuel exhausted. *)
Fixpoint while_loop (fuel : nat) (current_day : date)
    (data_dict : dict metrics) (g : RNG)
  : option (outcome (dict metrics) * RNG) :=
  match fuel with
  | O => None
  | S fuel' =>
      if date_le current_day end_date then
        let '(u1, g1) := uniform (of_int 0) (of_int 72) g in
        let recovery_score := round1 u1 in
        let '(u2, g2) := uniform (of_int 0) (of_int 100) g1 in
        let body_battery := round1 u2 in
        let '(u3, g3) := uniform (of_int 3) (of_int 9) g2 in
        let sleep_hours := round1 u3 in
        let '(stress_level, g4) := randint 0 100 g3 in
        let date_str := strftime_Ymd current_day in
        let data_dict :=
          set date_str
              (mkmetrics recovery_score body_battery sleep_hours stress_level)
              data_dict in
        match add_one_day current_day with
        | Some current_day => while_loop fuel' current_day data_dict g4
        | None => Some (Raise OverflowError, g4)
        end
      else Some (Return data_dict, g)
  end.

Definition generate_five_days_of_garmin_data (fuel : nat) (g : RNG)
  : option (outcome (dict metrics) * RNG) :=
  while_loop fuel start_date [] g.

End Random.

(** An instance of [random] to run the generator on: the state counts the
    calls, [uniform] alternates between its two bounds and [randint] walks
    through its range. *)
Definition counter_uniform (a b : float) (n : nat) : float * nat :=
  (if Nat.even n then a else b, S n).

Definition counter_randint (a b : Z) (n : nat) : Z * nat :=
  (a + Z.of_nat n mod (b - a + 1), S n).

(** The days on which the loop body runs when it starts at [current_day],
    within [fuel] tests of the condition. *)
Fixpoint days_from (fuel : nat) (current_day : date) : option (list date) :=
  match fuel with
  | O => None
  | S fuel' =>
      if date_le current_day end_date then
        match add_one_day current_day with
        | Some next =>
            match days_from fuel' next with
            | Some ds => Some (current_day :: ds)
            | None => None
            end
        | None => None
        end
      else Some []
  end.

(** The days the loop is meant to cover: January, February and the first
    of March 2023. *)
Definition days_of (y m : Z) (n : nat) : list date :=
  map (fun d => mkdate y m (Z.of_nat d)) (seq 1 n).

Definition covered_days : list date :=
  days_of 2023 1 31 ++ days_of 2023 2 28 ++ days_of 2023 3 1.

(** A float with one decimal between the integers [lo] and [hi]: the
    binary64 nearest to [d / 10] for an integer [d] from [10 * lo] to
    [10 * hi]; the sign is negative only for a negative zero. *)
Definition one_decimal (lo hi : Z) (x : float) : Prop :=
  exists s d,
    10 * lo <= d <= 10 * hi /\ (s = false \/ d = 0)
    /\ x = nearest_tenth s d.

(** The ranges of the four metrics. *)
Definition between (a b : Z) (x : float) : bool :=
  le (of_int a) x && le x (of_int b).

Definition metrics_in_range (m : metrics) : bool :=
  between 0 72 (recovery_score m)
  && between 0 100 (body_battery m)
  && between 3 9 (sleep_hours m)
  && (0 <=? stress_level m) && (stress_level m <=? 100).

End Generate_data.

(** * Properties *)

(** ** The order on floats *)

Section FloatOrder.

Lemma SFcompare_antisym (x y : float) (c : comparison) :
  SFcompare x y = Some c -> SFcompare y x = Some (CompOpp c).
Proof.
  destruct x as [sx|sx| |sx mx ex], y as [sy|sy| |sy my ey]; simpl;
    try discriminate;
    try (destruct sx; intros [= <-]; reflexivity);
    try (destruct sy; intros [= <-]; reflexivity);
    try (intros [= <-]; reflexivity).
  - destruct sx, sy; intros [= <-]; reflexivity.
  - intros [= <-]. f_equal.
    rewrite (Z.compare_antisym ex ey).
    replace (Pos.compare_cont Eq my mx)
      with (CompOpp (Pos.compare_cont Eq mx my))
      by apply (Pos.compare_cont_antisym mx my Eq).
    destruct sx, sy; simpl; try reflexivity;
      destruct (ex ?= ey); simpl; try reflexivity;
      destruct (Pos.compare_cont Eq mx my); reflexivity.
Qed.

Lemma SFcompare_None (x y : float) :
  SFcompare x y = None -> is_nan x = true \/ is_nan y = true.
Proof.
  destruct x, y; simpl; try discriminate; auto.
Qed.

Lemma le_true_lt_false (x y : float) : le x y = true -> lt y x = false.
Proof.
  unfold le, lt, SFleb, SFltb.
  destruct (SFcompare x y) as [c|] eqn:E; [|discriminate].
  rewrite (SFcompare_antisym _ _ _ E).
  destruct c; simpl; congruence.
Qed.

Lemma lt_true_le_false (x y : float) : lt x y = true -> le y x = false.
Proof.
  unfold le, lt, SFleb, SFltb.
  destruct (SFcompare x y) as [c|] eqn:E; [|discriminate].
  rewrite (SFcompare_antisym _ _ _ E).
  destruct c; simpl; congruence.
Qed.

Lemma le_not_nan (x y : float) :
  le x y = true -> is_nan x = false /\ is_nan y = false.
Proof.
  unfold le, SFleb. destruct x, y; simpl; try discriminate; auto.
Qed.

Lemma lt_false_le_true (x y : float) :
  is_nan x = false -> is_nan y = false -> lt y x = false -> le x y = true.
Proof.
  unfold le, lt, SFleb, SFltb. intros Hx Hy.
  destruct (SFcompare y x) as [c|] eqn:E.
  - rewrite (SFcompare_antisym _ _ _ E).
    destruct c; simpl; congruence.
  - destruct (SFcompare_None _ _ E); congruence.
Qed.

Lemma le_refl (x : float) : is_nan x = false -> le x x = true.
Proof.
  unfold le, SFleb. destruct x as [s|s| |s m e]; simpl; try discriminate;
    try reflexivity; intros _.
  - destruct s; reflexivity.
  - rewrite Z.compare_refl.
    change (Pos.compare_cont Eq m m) with (Pos.compare m m).
    rewrite Pos.compare_refl. destruct s; reflexivity.
Qed.

End FloatOrder.

(** ** The training-status handlers *)

Section TrainingStatus.

Import Garmin_info.

Lemma in_valid_range_bounds (s : float) :
  in_valid_range s = true ->
  lt s (of_int 0) = false /\ gt s (of_int 72) = false /\ is_nan s = false.
Proof.
  unfold in_valid_range. intros H.
  apply andb_true_iff in H as [H0 H72].
  repeat split.
  - now apply le_true_lt_false.
  - unfold gt. now apply le_true_lt_false.
  - now apply le_not_nan in H72.
Qed.

(** What [evaluate] returns, by cases on the two tests of the handler. *)
Lemma evaluate_eq (s : float) :
  evaluate s =
  if lt s (of_int 0) || gt s (of_int 72)
  then Raise (HTTPException 400
                "Recovery score must be between 0 and 72 hours")
  else if gt s (of_int 20)
  then Return (mkTrainingResponse "cancelled" s
                 "No training tomorrow, all training will be cancelled.")
  else Return (mkTrainingResponse "continue" s
                 "Training will continue as scheduled.").
Proof.
  unfold evaluate, get_training_status. cbn [Garmin_info.recovery_score].
  destruct (lt s (of_int 0) || gt s (of_int 72)); [reflexivity|].
  destruct (gt s (of_int 20)); reflexivity.
Qed.

Lemma evaluate_in_range (s : float) :
  in_valid_range s = true ->
  evaluate s =
  if gt s (of_int 20)
  then Return (mkTrainingResponse "cancelled" s
                 "No training tomorrow, all training will be cancelled.")
  else Return (mkTrainingResponse "continue" s
                 "Training will continue as scheduled.").
Proof.
  intros H. destruct (in_valid_range_bounds s H) as (H0 & H72 & _).
  rewrite evaluate_eq, H0, H72. reflexivity.
Qed.

(** C1: for every recovery score in the valid range [[0, 72]], the status
    of the result is ['cancelled'] exactly when the score is greater than
    20 and ['continue'] exactly when it lies in [[0, 20]]; the boundary
    value 20 itself is classified ['continue']. *)
Theorem training_status_threshold (s : float) :
  in_valid_range s = true ->
  exists r,
    evaluate s = Return r
    /\ (training_status r = "cancelled" <-> gt s (of_int 20) = true)
    /\ (training_status r = "continue"
        <-> le (of_int 0) s = true /\ le s (of_int 20) = true)
    /\ (s = of_int 20 -> training_status r = "continue").
Proof.
  intros H. rewrite (evaluate_in_range s H).
  pose proof (in_valid_range_bounds s H) as (_ & _ & Hnan).
  unfold in_valid_range in H. apply andb_true_iff in H as [H0 H72].
  destruct (gt s (of_int 20)) eqn:E20; eexists; (split; [reflexivity|]);
    cbn [training_status].
  - split; [tauto|]. split.
    + split; [discriminate|]. intros [_ Hle].
      unfold gt in E20. apply lt_true_le_false in E20. congruence.
    + intros ->. discriminate E20.
  - split; [split; discriminate|]. split; [|reflexivity].
    split; [|reflexivity]. intros _. split; [assumption|].
    apply lt_false_le_true; [assumption|reflexivity|exact E20].
Qed.

Lemma training_status_threshold_witness :
  exists r,
    evaluate (tenths 205) = Return r
    /\ (training_status r = "cancelled" <-> gt (tenths 205) (of_int 20) = true)
    /\ (training_status r = "continue"
        <-> le (of_int 0) (tenths 205) = true
            /\ le (tenths 205) (of_int 20) = true)
    /\ (tenths 205 = of_int 20 -> training_status r = "continue").
Proof.
  apply (training_status_threshold (tenths 205)). vm_compute. reflexivity.
Defined.

(** C2: [evaluate] fails exactly when the score is below 0 or above 72;
    the failure is the HTTP 400 error and no result comes with it; in the
    valid range a result is returned. *)
Theorem invalid_range_rejected (s : float) :
  ((exists e, evaluate s = Raise e)
   <-> lt s (of_int 0) = true \/ gt s (of_int 72) = true)
  /\ (forall e, evaluate s = Raise e ->
        e = HTTPException 400 "Recovery score must be between 0 and 72 hours"
        /\ forall r, evaluate s <> Return r)
  /\ (in_valid_range s = true -> exists r, evaluate s = Return r).
Proof.
  rewrite evaluate_eq. split; [split|split].
  - intros [e He]. apply orb_true_iff.
    destruct (lt s (of_int 0) || gt s (of_int 72)); [reflexivity|].
    destruct (gt s (of_int 20)); discriminate.
  - intros H. apply orb_true_iff in H. rewrite H. eexists. reflexivity.
  - intros e He.
    destruct (lt s (of_int 0) || gt s (of_int 72)).
    + injection He as <-. split; [reflexivity|discriminate].
    + destruct (gt s (of_int 20)); discriminate.
  - intros H. destruct (in_valid_range_bounds s H) as (H0 & H72 & _).
    rewrite H0, H72. cbn [orb].
    destruct (gt s (of_int 20)); eexists; reflexivity.
Qed.

Lemma invalid_range_rejected_witness :
  (evaluate (tenths 721)
   = Raise (HTTPException 400 "Recovery score must be between 0 and 72 hours")
   /\ forall r, evaluate (tenths 721) <> Return r)
  /\ exists r, evaluate (of_int 72) = Return r.
Proof.
  destruct (invalid_range_rejected (tenths 721)) as (_ & Hfail & _).
  destruct (invalid_range_rejected (of_int 72)) as (_ & _ & Hok).
  split.
  - destruct (Hfail _ eq_refl) as [_ Hno]. split; [reflexivity|exact Hno].
  - apply Hok. vm_compute. reflexivity.
Defined.

(** C3: for every recovery score in the valid range, the [recovery_hours]
    field of the result is the input itself. *)
Theorem recovery_hours_echo (s : float) :
  in_valid_range s = true ->
  exists r, evaluate s = Return r /\ recovery_hours r = s.
Proof.
  intros H. rewrite (evaluate_in_range s H).
  destruct (gt s (of_int 20)); eexists; split; reflexivity.
Qed.

Lemma recovery_hours_echo_witness :
  exists r, evaluate (tenths 91) = Return r /\ recovery_hours r = tenths 91.
Proof.
  apply (recovery_hours_echo (tenths 91)). vm_compute. reflexivity.
Defined.

(** C4: on every score and in every state of the process, the GET handler
    returns the same result, or fails in the same way, as the POST handler
    on a request that carries the score. *)
Theorem get_handler_same_as_post (World : Type) (w : World) (s : float) :
  get_training_status_get s w
  = get_training_status (mkRecoveryScoreRequest s) w.
Proof.
  unfold get_training_status_get. reflexivity.
Qed.

(** C5: for every recovery score in the valid range the message is the
    cancellation text when the score is above 20 and the continuation text
    when it lies in [[0, 20]]. *)
Theorem message_by_threshold (s : float) :
  in_valid_range s = true ->
  exists r,
    evaluate s = Return r
    /\ (gt s (of_int 20) = true ->
        message r = "No training tomorrow, all training will be cancelled.")
    /\ (le (of_int 0) s = true /\ le s (of_int 20) = true ->
        message r = "Training will continue as scheduled.").
Proof.
  intros H. rewrite (evaluate_in_range s H).
  destruct (gt s (of_int 20)) eqn:E20; eexists; (split; [reflexivity|]);
    cbn [message]; split; try reflexivity; try discriminate.
  intros [_ Hle]. unfold gt in E20. apply lt_true_le_false in E20.
  congruence.
Qed.

Lemma message_by_threshold_witness :
  exists r,
    evaluate (of_int 72) = Return r
    /\ (gt (of_int 72) (of_int 20) = true ->
        message r = "No training tomorrow, all training will be cancelled.")
    /\ (le (of_int 0) (of_int 72) = true /\ le (of_int 72) (of_int 20) = true ->
        message r = "Training will continue as scheduled.").
Proof.
  apply (message_by_threshold (of_int 72)). vm_compute. reflexivity.
Defined.

(** C6, as the specification words it, fails: the response of a valid
    request has no field named [status]. *)
Lemma response_has_no_status_field :
  exists r,
    evaluate (of_int 10) = Return r
    /\ field_names r <> ["status"; "recovery_hours"; "message"]
    /\ ~ In "status" (field_names r).
Proof.
  eexists. split; [reflexivity|]. split.
  - discriminate.
  - cbn. intros [H|[H|[H|[]]]]; discriminate H.
Qed.

(** C6, amended: a successful response has exactly the three fields
    [training_status], [recovery_hours] and [message], in this order; the
    first is a string that is always ['continue'] or ['cancelled'], the
    second a float and the third a string. *)
Theorem response_fields (s : float) (r : TrainingResponse) :
  evaluate s = Return r ->
  model_dump r
  = [ ("training_status", JString (training_status r));
      ("recovery_hours", JNumber (recovery_hours r));
      ("message", JString (message r)) ]
  /\ field_names r = ["training_status"; "recovery_hours"; "message"]
  /\ (training_status r = "continue" \/ training_status r = "cancelled").
Proof.
  rewrite evaluate_eq. intros H. split; [reflexivity|]. split; [reflexivity|].
  destruct (lt s (of_int 0) || gt s (of_int 72)); [discriminate|].
  destruct (gt s (of_int 20)); injection H as <-; cbn; auto.
Qed.

Lemma response_fields_witness :
  exists r,
    evaluate (of_int 10) = Return r
    /\ field_names r = ["training_status"; "recovery_hours"; "message"]
    /\ (training_status r = "continue" \/ training_status r = "cancelled").
Proof.
  eexists. split; [reflexivity|].
  exact (proj2 (response_fields (of_int 10) _ eq_refl)).
Defined.

(** [evaluate] stands for the handler in every state of the process: the
    handlers of this module are stated over any state and [evaluate] over
    none. *)
Lemma get_training_status_run (World : Type) (w : World) (s : float) :
  get_training_status (mkRecoveryScoreRequest s) w = (evaluate s, w).
Proof.
  rewrite evaluate_eq.
  unfold get_training_status. cbn [Garmin_info.recovery_score].
  destruct (lt s (of_int 0) || gt s (of_int 72)); [reflexivity|].
  destruct (gt s (of_int 20)); reflexivity.
Qed.

End TrainingStatus.

(** ** Dictionaries *)

Section DictFacts.

Import PyDict.

Context {V : Type}.

Lemma contains_In (k : string) (d : dict V) :
  contains k d = true <-> In k (keys d).
Proof.
  induction d as [|[k' v] d IH]; cbn.
  - split; [discriminate|tauto].
  - destruct (String.eqb_spec k k') as [->|Hne].
    + split; auto.
    + rewrite IH. split; [auto|]. intros [Heq|H]; [congruence|assumption].
Qed.

Lemma contains_get (k : string) (d : dict V) :
  contains k d = true -> exists v, get k d = Some v.
Proof.
  induction d as [|[k' v] d IH]; cbn; [discriminate|].
  destruct (String.eqb k k'); [intros _; eauto|assumption].
Qed.

Lemma get_In (k : string) (v : V) (d : dict V) :
  get k d = Some v -> In (k, v) d.
Proof.
  induction d as [|[k' v'] d IH]; cbn; [discriminate|].
  destruct (String.eqb_spec k k') as [->|Hne].
  - intros [= ->]. now left.
  - intros H. right. now apply IH.
Qed.

Lemma set_fresh (k : string) (v : V) (d : dict V) :
  ~ In k (keys d) -> set k v d = (d ++ [(k, v)])%list.
Proof.
  induction d as [|[k' v'] d IH]; cbn; [reflexivity|].
  intros Hk. destruct (String.eqb_spec k k') as [->|Hne]; [tauto|].
  rewrite IH by tauto. reflexivity.
Qed.

End DictFacts.

(** ** The fixture endpoints *)

Section FrontEnd.

Import PyDict PyDate Front_end.

(** C8: on whatever dictionary [SAMPLE_DATA] holds, the lookup endpoint
    fails with the HTTP 404 error exactly when the date is not a key; when
    it is a key the endpoint returns the record of the date and of the
    value stored under it; the dictionary is never modified. *)
Theorem get_data_for_date_lookup (w : World) (date : string) :
  ((exists detail,
       fst (get_data_for_date date w) = Raise (HTTPException 404 detail))
   <-> ~ In date (keys w))
  /\ (~ In date (keys w) ->
      fst (get_data_for_date date w)
      = Raise (HTTPException 404 ("No data found for date " ++ date)))
  /\ (In date (keys w) ->
      exists data,
        get date w = Some data
        /\ fst (get_data_for_date date w)
           = Return (mkFitnessDataResponse date data))
  /\ snd (get_data_for_date date w) = w.
Proof.
  unfold get_data_for_date, bind, read_SAMPLE_DATA.
  destruct (contains date w) eqn:E; cbn [negb].
  - pose proof (proj1 (contains_In date w) E) as HIn.
    destruct (contains_get date w E) as [data Hget].
    rewrite Hget. cbn.
    split; [split|split; [|split]].
    + intros [detail H]. discriminate H.
    + tauto.
    + tauto.
    + intros _. exists data. split; reflexivity.
    + reflexivity.
  - assert (HIn : ~ In date (keys w)).
    { intros H. apply contains_In in H. congruence. }
    cbn. split; [split|split; [|split]].
    + intros _. exact HIn.
    + intros _. eexists. reflexivity.
    + reflexivity.
    + tauto.
    + reflexivity.
Qed.

Lemma get_data_for_date_lookup_witness :
  fst (get_data_for_date "2023-01-08" SAMPLE_DATA)
  = Raise (HTTPException 404 "No data found for date 2023-01-08")
  /\ (exists data,
        get "2023-01-05" SAMPLE_DATA = Some data
        /\ fst (get_data_for_date "2023-01-05" SAMPLE_DATA)
           = Return (mkFitnessDataResponse "2023-01-05" data))
  /\ snd (get_data_for_date "2023-01-05" SAMPLE_DATA) = SAMPLE_DATA.
Proof.
  destruct (get_data_for_date_lookup SAMPLE_DATA "2023-01-08")
    as (_ & Hmiss & _ & _).
  destruct (get_data_for_date_lookup SAMPLE_DATA "2023-01-05")
    as (_ & _ & Hhit & Hsame).
  split; [|split].
  - apply Hmiss. cbn. intros H.
    repeat (destruct H as [H|H]; [discriminate H|]). exact H.
  - apply Hhit. cbn. tauto.
  - exact Hsame.
Defined.

Lemma SAMPLE_DATA_keys (date : string) :
  contains date SAMPLE_DATA = true ->
  In date ["2023-01-01"; "2023-01-02"; "2023-01-03"; "2023-01-04";
           "2023-01-05"; "2023-01-06"; "2023-01-07"].
Proof.
  intros H. apply contains_In in H. exact H.
Qed.

(** C9: the page endpoint fails on no date string at all, and so on none
    whose format is parseable: a date that is not a key of [SAMPLE_DATA] is
    replaced by the first key, ['2023-01-01'], and the page of that day is
    returned; [SAMPLE_DATA] is left as it was. *)
Theorem get_visualization_never_fails (date : string) :
  exists p,
    get_visualization date SAMPLE_DATA = (Return p, SAMPLE_DATA)
    /\ (contains date SAMPLE_DATA = false ->
        nth_error (keys SAMPLE_DATA) 0 = Some "2023-01-01"
        /\ get_visualization date SAMPLE_DATA
           = get_visualization "2023-01-01" SAMPLE_DATA
        /\ display_date p = "January 01, 2023"
        /\ get "2023-01-01" SAMPLE_DATA
           = Some (mkmetrics (card_value (recovery_card p))
                             (card_value (battery_card p))
                             (card_value (sleep_card p))
                             (card_value (stress_card p)))).
Proof.
  destruct (contains date SAMPLE_DATA) eqn:E.
  - apply SAMPLE_DATA_keys in E. cbn in E.
    repeat (destruct E as [<-|E];
            [eexists; split; [vm_compute; reflexivity|discriminate]|]).
    destruct E.
  - assert (H : get_visualization date SAMPLE_DATA
                = get_visualization "2023-01-01" SAMPLE_DATA).
    { unfold get_visualization, bind, read_SAMPLE_DATA.
      rewrite E. reflexivity. }
    rewrite H. eexists. split; [vm_compute; reflexivity|].
    intros _. repeat split.
Qed.

Lemma get_visualization_never_fails_witness :
  exists p,
    get_visualization "2024-02-30" SAMPLE_DATA = (Return p, SAMPLE_DATA)
    /\ display_date p = "January 01, 2023".
Proof.
  destruct (get_visualization_never_fails "2024-02-30") as (p & Hp & Hfall).
  exists p. split; [exact Hp|].
  exact (proj1 (proj2 (proj2 (Hfall eq_refl)))).
Defined.

End FrontEnd.

(** ** Exact values of floats *)

Section FloatValues.

Lemma digits2_pos_bounds (m : positive) :
  2 ^ (Zpos (digits2_pos m) - 1) <= Zpos m < 2 ^ Zpos (digits2_pos m).
Proof.
  induction m as [p IH|p IH|]; cbn [digits2_pos].
  - rewrite Pos2Z.inj_succ. change (Zpos p~1) with (2 * Zpos p + 1).
    replace (Z.succ (Zpos (digits2_pos p)) - 1)
      with (Z.succ (Zpos (digits2_pos p) - 1)) by lia.
    rewrite !Z.pow_succ_r by lia.
    generalize dependent (2 ^ (Zpos (digits2_pos p) - 1)).
    generalize dependent (2 ^ Zpos (digits2_pos p)). intros. lia.
  - rewrite Pos2Z.inj_succ. change (Zpos p~0) with (2 * Zpos p).
    replace (Z.succ (Zpos (digits2_pos p)) - 1)
      with (Z.succ (Zpos (digits2_pos p) - 1)) by lia.
    rewrite !Z.pow_succ_r by lia.
    generalize dependent (2 ^ (Zpos (digits2_pos p) - 1)).
    generalize dependent (2 ^ Zpos (digits2_pos p)). intros. lia.
  - cbn. lia.
Qed.

(** A valid finite float has its exponent in [[-1074, 971]] and a mantissa
    below [2^53], which is at least [2^52] unless the exponent is least. *)
Lemma valid_finite (s : bool) (m : positive) (e : Z) :
  valid (S754_finite s m e) = true ->
  -1074 <= e <= 971
  /\ Zpos m < 2 ^ 53
  /\ (-1074 < e -> 2 ^ 52 <= Zpos m).
Proof.
  unfold valid, valid_binary, bounded, canonical_mantissa, fexp, emin,
    prec, emax.
  intros H. apply andb_true_iff in H as [Hc He].
  apply Z.eqb_eq in Hc. apply Z.leb_le in He.
  pose proof (digits2_pos_bounds m) as [Hlo Hhi].
  set (D := Zpos (digits2_pos m)) in *.
  assert (HD : D <= 53) by lia.
  split; [lia|]. split.
  - apply Z.lt_le_trans with (1 := Hhi).
    apply Z.pow_le_mono_r; lia.
  - intros Hn. assert (D = 53) by lia.
    replace 52 with (D - 1) by lia. exact Hlo.
Qed.

Lemma pow2_pos (k : Z) : 0 <= k -> 0 < 2 ^ k.
Proof. intros. apply Z.pow_pos_nonneg; lia. Qed.

Lemma scaled_lt (m1 m2 : positive) (e1 e2 : Z) :
  valid (S754_finite false m1 e1) = true ->
  valid (S754_finite false m2 e2) = true ->
  e1 < e2 ->
  Zpos m1 * 2 ^ (e1 + 1074) < Zpos m2 * 2 ^ (e2 + 1074).
Proof.
  intros H1 H2 Hlt.
  apply valid_finite in H1 as (He1 & Hm1 & _).
  apply valid_finite in H2 as (He2 & _ & Hm2).
  specialize (Hm2 ltac:(lia)).
  pose proof (pow2_pos (e1 + 1074) ltac:(lia)) as HP.
  assert (Hpow : 2 * 2 ^ (e1 + 1074) <= 2 ^ (e2 + 1074)).
  { rewrite <- Z.pow_succ_r by lia. apply Z.pow_le_mono_r; lia. }
  change (2 ^ 53) with (2 * 2 ^ 52) in Hm1.
  assert (H52 : 0 < 2 ^ 52) by (apply pow2_pos; lia).
  nia.
Qed.

Lemma SFcompare_scaled (m1 m2 : positive) (e1 e2 : Z) :
  valid (S754_finite false m1 e1) = true ->
  valid (S754_finite false m2 e2) = true ->
  match e1 ?= e2 with
  | Lt => Lt
  | Gt => Gt
  | Eq => Pos.compare_cont Eq m1 m2
  end
  = (Zpos m1 * 2 ^ (e1 + 1074) ?= Zpos m2 * 2 ^ (e2 + 1074)).
Proof.
  intros H1 H2. destruct (Z.compare_spec e1 e2) as [->|Hlt|Hgt].
  - pose proof (valid_finite _ _ _ H2) as (He & _ & _).
    rewrite <- Zmult_compare_compat_r
      by (apply Z.lt_gt, pow2_pos; lia).
    reflexivity.
  - symmetry. apply Z.compare_lt_iff. now apply scaled_lt.
  - symmetry. apply Z.compare_gt_iff. now apply scaled_lt.
Qed.

Lemma valid_sign (s s' : bool) (m : positive) (e : Z) :
  valid (S754_finite s m e) = valid (S754_finite s' m e).
Proof. reflexivity. Qed.

Lemma scaled_pos (m : positive) (k : Z) : 0 <= k -> 0 < Zpos m * 2 ^ k.
Proof.
  intros. apply Z.mul_pos_pos; [reflexivity|now apply pow2_pos].
Qed.

(** On valid floats that are not NaN or infinite, Python's comparison is
    the comparison of the exact values. *)
Lemma SFcompare_ulps_match (x y : float) :
  valid x = true -> valid y = true ->
  match ulps x, ulps y with
  | Some a, Some b => SFcompare x y = Some (a ?= b)
  | _, _ => True
  end.
Proof.
  destruct x as [sx|sx| |sx mx ex], y as [sy|sy| |sy my ey];
    cbn [ulps]; trivial; intros Vx Vy.
  - pose proof (valid_finite _ _ _ Vy) as (He & _ & _).
    pose proof (scaled_pos my (ey + 1074) ltac:(lia)).
    cbn [SFcompare]. f_equal. symmetry.
    destruct sy; cbn [cond_Zopp];
      [apply Z.compare_gt_iff|apply Z.compare_lt_iff]; lia.
  - pose proof (valid_finite _ _ _ Vx) as (He & _ & _).
    pose proof (scaled_pos mx (ex + 1074) ltac:(lia)).
    cbn [SFcompare]. f_equal. symmetry.
    destruct sx; cbn [cond_Zopp];
      [apply Z.compare_lt_iff|apply Z.compare_gt_iff]; lia.
  - pose proof (valid_finite _ _ _ Vx) as (Hex & _ & _).
    pose proof (valid_finite _ _ _ Vy) as (Hey & _ & _).
    pose proof (scaled_pos mx (ex + 1074) ltac:(lia)).
    pose proof (scaled_pos my (ey + 1074) ltac:(lia)).
    rewrite (valid_sign sx false) in Vx. rewrite (valid_sign sy false) in Vy.
    cbn [SFcompare]. f_equal.
    destruct sx, sy; cbn [cond_Zopp].
    + rewrite Z.compare_opp, <- (SFcompare_scaled my mx ey ex Vy Vx).
      rewrite (Z.compare_antisym ex ey).
      replace (Pos.compare_cont Eq my mx)
        with (CompOpp (Pos.compare_cont Eq mx my))
        by apply (Pos.compare_cont_antisym mx my Eq).
      destruct (ex ?= ey); reflexivity.
    + symmetry. apply Z.compare_lt_iff. lia.
    + symmetry. apply Z.compare_gt_iff. lia.
    + apply SFcompare_scaled; assumption.
Qed.

Lemma SFcompare_ulps (x y : float) (a b : Z) :
  valid x = true -> valid y = true ->
  ulps x = Some a -> ulps y = Some b ->
  SFcompare x y = Some (a ?= b).
Proof.
  intros Vx Vy Hx Hy. pose proof (SFcompare_ulps_match x y Vx Vy) as H.
  rewrite Hx, Hy in H. exact H.
Qed.

Lemma le_ulps (x y : float) (a b : Z) :
  valid x = true -> valid y = true ->
  ulps x = Some a -> ulps y = Some b ->
  le x y = (a <=? b).
Proof.
  intros Vx Vy Hx Hy. unfold le, SFleb.
  rewrite (SFcompare_ulps x y a b Vx Vy Hx Hy).
  unfold Z.leb. destruct (a ?= b); reflexivity.
Qed.

Lemma lt_ulps (x y : float) (a b : Z) :
  valid x = true -> valid y = true ->
  ulps x = Some a -> ulps y = Some b ->
  lt x y = (a <? b).
Proof.
  intros Vx Vy Hx Hy. unfold lt, SFltb.
  rewrite (SFcompare_ulps x y a b Vx Vy Hx Hy).
  unfold Z.ltb. destruct (a ?= b); reflexivity.
Qed.

End FloatValues.

(** ** Rounding to one decimal *)

Section Rounding.

Import Generate_data.

Lemma div_pow2_half_even_bounds (n k lo hi : Z) :
  0 <= k ->
  lo * 2 ^ k <= n <= hi * 2 ^ k ->
  lo <= div_pow2_half_even n k <= hi.
Proof.
  intros Hk Hn. unfold div_pow2_half_even.
  pose proof (pow2_pos k Hk) as HK.
  pose proof (Z.div_mod n (2 ^ k) ltac:(lia)) as Hdm.
  pose proof (Z.mod_pos_bound n (2 ^ k) HK) as Hr.
  generalize dependent (n mod 2 ^ k). generalize dependent (n / 2 ^ k).
  generalize dependent (2 ^ k). intros K Hn HK q r Hdm Hr.
  assert (Hq : lo <= q) by nia.
  destruct (Z.compare_spec (2 * r) K) as [He|Hl|Hg].
  - assert (q + 1 <= hi) by nia. destruct (Z.even q); lia.
  - assert (q <= hi) by nia. lia.
  - assert (q + 1 <= hi) by nia. lia.
Qed.

Lemma round1_tenths (x : float) (lo hi u : Z) :
  valid x = true -> ulps x = Some u ->
  0 <= lo -> lo * 2 ^ 1074 <= u <= hi * 2 ^ 1074 ->
  exists s d,
    round1 x = nearest_tenth s d /\ 10 * lo <= d <= 10 * hi
    /\ (s = false \/ d = 0).
Proof.
  intros Vx Hu Hlo Hb.
  pose proof (pow2_pos 1074 ltac:(lia)) as HP.
  destruct x as [s|s| |s m e]; try discriminate.
  - assert (u = 0) by (cbn [ulps] in Hu; congruence). subst u.
    exists s, 0. split; [reflexivity|]. split; [nia|now right].
  - pose proof (valid_finite _ _ _ Vx) as (He & _ & _).
    pose proof (scaled_pos m (e + 1074) ltac:(lia)) as Hpos.
    assert (Hu' : u = cond_Zopp s (Zpos m * 2 ^ (e + 1074)))
      by (cbn [ulps] in Hu; congruence).
    destruct s; cbn [cond_Zopp] in Hu'; [nia|]. subst u.
    exists false. eexists. split; [reflexivity|]. split; [|now left].
    destruct (Z.leb_spec 0 e) as [Hge|Hneg].
    + rewrite Z.pow_add_r in Hb by lia.
      pose proof (pow2_pos e Hge) as HE.
      set (P := 2 ^ 1074) in *. set (E := 2 ^ e) in *. clearbody P E.
      assert (lo <= Zpos m * E <= hi); [|lia].
      split; apply (Z.mul_le_mono_pos_r _ _ P HP); lia.
    + apply div_pow2_half_even_bounds; [lia|].
      assert (Heq : 2 ^ 1074 = 2 ^ (e + 1074) * 2 ^ (- e))
        by (rewrite <- Z.pow_add_r by lia; f_equal; lia).
      rewrite Heq in Hb. clear Heq.
      pose proof (pow2_pos (e + 1074) ltac:(lia)) as HQ.
      pose proof (pow2_pos (- e) ltac:(lia)) as HK.
      set (Q := 2 ^ (e + 1074)) in *. set (K := 2 ^ (- e)) in *.
      clearbody Q K.
      assert (lo * K <= Zpos m <= hi * K); [|lia].
      split; apply (Z.mul_le_mono_pos_r _ _ Q HQ); lia.
Qed.

Lemma between_zero_sign (lo hi : Z) (s s' : bool) :
  between lo hi (S754_zero s) = between lo hi (S754_zero s').
Proof.
  unfold between, le, SFleb.
  destruct (of_int lo), (of_int hi); reflexivity.
Qed.

Lemma nearest_tenth_between (lo hi : Z) :
  0 <= lo ->
  forallb (fun n => between lo hi (nearest_tenth false (Z.of_nat n)))
          (seq (Z.to_nat (10 * lo)) (Z.to_nat (10 * (hi - lo) + 1))) = true ->
  forall s d, 10 * lo <= d <= 10 * hi -> s = false \/ d = 0 ->
    between lo hi (nearest_tenth s d) = true.
Proof.
  intros Hlo Hall s d Hd Hs.
  assert (H : between lo hi (nearest_tenth false d) = true).
  { rewrite forallb_forall in Hall.
    specialize (Hall (Z.to_nat d)). rewrite Z2Nat.id in Hall by lia.
    apply Hall, in_seq. lia. }
  destruct Hs as [->| ->]; [exact H|].
  cbn [nearest_tenth] in *. now rewrite (between_zero_sign lo hi s false).
Qed.

Lemma between_ulps (lo hi : Z) (x : float) :
  ulps (of_int lo) = Some (lo * 2 ^ 1074) ->
  ulps (of_int hi) = Some (hi * 2 ^ 1074) ->
  valid (of_int lo) = true -> valid (of_int hi) = true ->
  valid x = true -> between lo hi x = true ->
  exists u, ulps x = Some u /\ lo * 2 ^ 1074 <= u <= hi * 2 ^ 1074.
Proof.
  intros Ul Uh Vl Vh Vx Hb. unfold between in Hb.
  apply andb_true_iff in Hb as [Hl Hh].
  assert (Hu : exists u, ulps x = Some u).
  { destruct x as [s|s| |s m e]; cbn [ulps]; eauto.
    - exfalso. unfold le, SFleb in Hl, Hh.
      destruct (of_int lo), (of_int hi), s; discriminate.
    - exfalso. unfold le, SFleb in Hh.
      destruct (of_int hi); discriminate. }
  destruct Hu as [u Hu]. exists u. split; [exact Hu|].
  rewrite (le_ulps _ _ _ _ Vl Vx Ul Hu) in Hl.
  rewrite (le_ulps _ _ _ _ Vx Vh Hu Uh) in Hh.
  apply Z.leb_le in Hl, Hh. lia.
Qed.

Lemma between_0_72_ulps (x : float) :
  valid x = true -> between 0 72 x = true ->
  exists u, ulps x = Some u /\ 0 * 2 ^ 1074 <= u <= 72 * 2 ^ 1074.
Proof.
  apply between_ulps; vm_compute; reflexivity.
Qed.

(** Rounding to one decimal keeps a valid float within integer bounds
    [lo <= hi]; the [forallb] premise checks the finitely many decimals
    [lo.0, ..., hi.0]. *)
Lemma round1_between (lo hi : Z) (x : float) :
  0 <= lo ->
  ulps (of_int lo) = Some (lo * 2 ^ 1074) ->
  ulps (of_int hi) = Some (hi * 2 ^ 1074) ->
  valid (of_int lo) = true -> valid (of_int hi) = true ->
  forallb (fun n => between lo hi (nearest_tenth false (Z.of_nat n)))
          (seq (Z.to_nat (10 * lo)) (Z.to_nat (10 * (hi - lo) + 1))) = true ->
  valid x = true -> between lo hi x = true ->
  between lo hi (round1 x) = true.
Proof.
  intros Hlo Ul Uh Vl Vh Hall Vx Hb.
  destruct (between_ulps lo hi x Ul Uh Vl Vh Vx Hb) as (u & Hu & Hr).
  destruct (round1_tenths x lo hi u Vx Hu Hlo Hr) as (s & d & -> & Hd & Hs).
  now apply nearest_tenth_between.
Qed.

Lemma round1_between_0_72 (x : float) :
  valid x = true -> between 0 72 x = true ->
  between 0 72 (round1 x) = true.
Proof.
  apply round1_between; try (vm_compute; reflexivity). lia.
Qed.

Lemma round1_between_0_100 (x : float) :
  valid x = true -> between 0 100 x = true ->
  between 0 100 (round1 x) = true.
Proof.
  apply round1_between; try (vm_compute; reflexivity). lia.
Qed.

Lemma round1_between_3_9 (x : float) :
  valid x = true -> between 3 9 x = true ->
  between 3 9 (round1 x) = true.
Proof.
  apply round1_between; try (vm_compute; reflexivity). lia.
Qed.

End Rounding.

(** ** The valid range and the boundary scenarios, in exact values *)

Section TrainingStatusExact.

Import Garmin_info.

(** For a binary64 float, to pass the two range tests of the handler is to
    have an exact value between 0 and 72. *)
Lemma in_valid_range_exact (s : float) :
  valid s = true ->
  in_valid_range s = true
  <-> exists u, ulps s = Some u /\ 0 <= u <= 72 * 2 ^ 1074.
Proof.
  intros Vs. split.
  - intros H. change (Generate_data.between 0 72 s = true) in H.
    destruct (between_0_72_ulps s Vs H) as (u & Hu & Hr).
    exists u. split; [exact Hu|lia].
  - intros (u & Hu & Hr). unfold in_valid_range.
    rewrite (le_ulps (of_int 0) s 0 u eq_refl Vs eq_refl Hu).
    rewrite (le_ulps s (of_int 72) u (72 * 2 ^ 1074) Vs eq_refl Hu)
      by (vm_compute; reflexivity).
    apply andb_true_iff. split; apply Z.leb_le; lia.
Qed.

(** NaN fails neither range test, so it is not rejected: it is classified
    ['continue']. *)
Remark evaluate_nan :
  evaluate nan
  = Return (mkTrainingResponse "continue" nan
              "Training will continue as scheduled.").
Proof. reflexivity. Qed.

(** The boundary scenarios: 20.0, 0 and 72 are accepted, 72.1 and -0.1 are
    rejected. *)
Example boundary_scenarios :
  (exists r, evaluate (tenths 200) = Return r
             /\ training_status r = "continue")
  /\ (exists r, evaluate (tenths 201) = Return r
                /\ training_status r = "cancelled")
  /\ (exists r, evaluate (of_int 0) = Return r
                /\ training_status r = "continue")
  /\ (exists r, evaluate (of_int 72) = Return r
                /\ training_status r = "cancelled")
  /\ (exists e, evaluate (tenths 721) = Raise e)
  /\ (exists e, evaluate (tenths (-1)) = Raise e).
Proof.
  repeat split; eexists; try split; vm_compute; reflexivity.
Qed.

End TrainingStatusExact.

(** ** The fixture generator *)

Section Generator.

Import PyDict PyDate Generate_data.

Lemma fold_set_fresh {V : Type} (l : list (string * V)) :
  forall acc : dict V,
    NoDup (keys acc ++ map fst l)%list ->
    fold_left (fun d p => set (fst p) (snd p) d) l acc = (acc ++ l)%list.
Proof.
  induction l as [|[k v] l IH]; intros acc H; cbn [fold_left fst snd].
  - now rewrite app_nil_r.
  - cbn [map fst] in H.
    rewrite set_fresh.
    + rewrite IH.
      * now rewrite <- app_assoc.
      * unfold keys in *. rewrite map_app, <- app_assoc. exact H.
    + intros Hin. apply NoDup_remove_2 in H. apply H.
      apply in_or_app. now left.
Qed.

Lemma keys_combine {V : Type} (ks : list string) (vs : list V) :
  List.length vs = List.length ks -> keys (combine ks vs) = ks.
Proof.
  revert vs. induction ks as [|k ks IH]; intros [|v vs] H;
    try discriminate; [reflexivity|].
  cbn. f_equal. apply IH. now injection H.
Qed.

Lemma values_combine {V : Type} (ks : list string) (vs : list V) :
  List.length vs = List.length ks -> values (combine ks vs) = vs.
Proof.
  revert vs. induction ks as [|k ks IH]; intros [|v vs] H;
    try discriminate; [reflexivity|].
  cbn. f_equal. apply IH. now injection H.
Qed.

Lemma days_from_more_fuel (fuel : nat) :
  forall cur ds,
    days_from fuel cur = Some ds -> days_from (S fuel) cur = Some ds.
Proof.
  induction fuel as [|fuel IH]; intros cur ds H; [discriminate|].
  cbn [days_from] in H. change (days_from (S (S fuel)) cur) with
    (if date_le cur end_date then
       match add_one_day cur with
       | Some next =>
           match days_from (S fuel) next with
           | Some ds => Some (cur :: ds)
           | None => None
           end
       | None => None
       end
     else Some []).
  destruct (date_le cur end_date); [|exact H].
  destruct (add_one_day cur) as [next|]; [|discriminate].
  destruct (days_from fuel next) as [ds'|] eqn:E; [|discriminate].
  now rewrite (IH _ _ E).
Qed.

Lemma days_from_covered (fuel : nat) :
  (61 <= fuel)%nat -> days_from fuel start_date = Some covered_days.
Proof.
  induction 1 as [|fuel _ IH].
  - vm_compute. reflexivity.
  - now apply days_from_more_fuel.
Qed.

Lemma covered_days_NoDup : NoDup (map strftime_Ymd covered_days).
Proof.
  replace (map strftime_Ymd covered_days)
    with (nodup string_dec (map strftime_Ymd covered_days))
    by (vm_compute; reflexivity).
  apply NoDup_nodup.
Qed.

Variable RNG : Type.
Variable uniform : float -> float -> RNG -> float * RNG.
Variable randint : Z -> Z -> RNG -> Z * RNG.
Hypothesis uniform_ok : uniform_contract RNG uniform.
Hypothesis randint_ok : randint_contract RNG randint.

Lemma uniform_between (a b : Z) (g : RNG) :
  valid (of_int a) = true -> valid (of_int b) = true ->
  le (of_int a) (of_int b) = true ->
  valid (fst (uniform (of_int a) (of_int b) g)) = true
  /\ between a b (fst (uniform (of_int a) (of_int b) g)) = true.
Proof.
  intros Va Vb Hab.
  destruct (uniform_ok (of_int a) (of_int b) g Va Vb Hab) as (Hv & Hl & Hh).
  split; [exact Hv|]. unfold between. now rewrite Hl, Hh.
Qed.

(** The loop runs its body once for each day of [days_from], adds the day's
    entry under the day's text, and every entry it adds is in range. *)
Lemma while_loop_trace (fuel : nat) :
  forall cur ds, days_from fuel cur = Some ds ->
  forall (data_dict : dict metrics) (g : RNG),
  exists ms g',
    List.length ms = List.length ds
    /\ Forall (fun m => metrics_in_range m = true) ms
    /\ while_loop RNG uniform randint fuel cur data_dict g
       = Some (Return
                 (fold_left (fun d p => set (fst p) (snd p) d)
                            (combine (map strftime_Ymd ds) ms) data_dict),
               g').
Proof.
  induction fuel as [|fuel IH]; intros cur ds Hds data_dict g;
    [discriminate|].
  cbn [days_from] in Hds. cbn [while_loop].
  destruct (date_le cur end_date).
  - destruct (add_one_day cur) as [next|]; [|discriminate].
    destruct (days_from fuel next) as [ds'|] eqn:E; [|discriminate].
    injection Hds as <-.
    pose proof (uniform_between 0 72 g eq_refl eq_refl eq_refl) as [V1 B1].
    destruct (uniform (of_int 0) (of_int 72) g) as [u1 g1].
    pose proof (uniform_between 0 100 g1 eq_refl eq_refl eq_refl) as [V2 B2].
    destruct (uniform (of_int 0) (of_int 100) g1) as [u2 g2].
    pose proof (uniform_between 3 9 g2 eq_refl eq_refl eq_refl) as [V3 B3].
    destruct (uniform (of_int 3) (of_int 9) g2) as [u3 g3].
    pose proof (randint_ok 0 100 g3 ltac:(lia)) as B4.
    destruct (randint 0 100 g3) as [n g4].
    cbn [fst] in *.
    destruct (IH next ds' E
                (set (strftime_Ymd cur)
                     (mkmetrics (round1 u1) (round1 u2) (round1 u3) n)
                     data_dict) g4)
      as (ms & g' & Hlen & Hall & Hrun).
    exists (mkmetrics (round1 u1) (round1 u2) (round1 u3) n :: ms), g'.
    split; [cbn; now rewrite Hlen|]. split.
    + constructor; [|exact Hall].
      unfold metrics_in_range.
      cbn [recovery_score body_battery sleep_hours stress_level].
      rewrite (round1_between_0_72 u1 V1 B1).
      rewrite (round1_between_0_100 u2 V2 B2).
      rewrite (round1_between_3_9 u3 V3 B3).
      destruct B4 as [B4 B4'].
      apply Z.leb_le in B4, B4'. now rewrite B4, B4'.
    + exact Hrun.
  - injection Hds as <-. exists [], g. repeat split. constructor.
Qed.

(** C10: under the documented behaviour of [random], and with fuel for 61
    tests of the loop condition or more, the generator returns a dictionary
    with one entry for each day from 2023-01-01 to 2023-03-01, in this
    order: 60 entries, not 5; in every entry the recovery score is in
    [[0, 72]], the body battery in [[0, 100]], the sleep hours in [[3, 9]]
    and the stress level an integer in [[0, 100]]. *)
Theorem generate_covers_sixty_days (fuel : nat) (g : RNG) :
  (61 <= fuel)%nat ->
  exists data g',
    generate_five_days_of_garmin_data RNG uniform randint fuel g
    = Some (Return data, g')
    /\ keys data = map strftime_Ymd covered_days
    /\ NoDup (keys data)
    /\ List.length data = 60%nat
    /\ List.length data <> 5%nat
    /\ Forall (fun m => metrics_in_range m = true) (values data).
Proof.
  intros Hfuel. unfold generate_five_days_of_garmin_data.
  destruct (while_loop_trace fuel start_date covered_days
              (days_from_covered fuel Hfuel) [] g)
    as (ms & g' & Hlen & Hall & Hrun).
  rewrite Hrun. clear Hrun.
  assert (Hlen' : List.length ms
                  = List.length (map strftime_Ymd covered_days))
    by now rewrite length_map.
  pose proof covered_days_NoDup as Hnd.
  pose proof (keys_combine _ _ Hlen') as Hkeys.
  rewrite fold_set_fresh
    by (change (NoDup (keys (combine (map strftime_Ymd covered_days) ms)));
        now rewrite Hkeys).
  cbn [app].
  eexists _, g'. split; [reflexivity|].
  rewrite keys_combine, values_combine by exact Hlen'.
  assert (Hn : List.length (combine (map strftime_Ymd covered_days) ms)
               = 60%nat).
  { rewrite length_combine, <- Hlen', Nat.min_id, Hlen. reflexivity. }
  repeat split; try assumption. rewrite Hn. discriminate.
Qed.

End Generator.

Section GeneratorRun.

Import PyDict PyDate Generate_data.

Lemma counter_uniform_contract : uniform_contract nat counter_uniform.
Proof.
  intros a b n Va Vb Hab. unfold counter_uniform. cbn [fst].
  destruct (le_not_nan a b Hab) as [Na Nb].
  destruct (Nat.even n); repeat split; auto using le_refl.
Qed.

Lemma counter_randint_contract : randint_contract nat counter_randint.
Proof.
  intros a b n Hab. unfold counter_randint. cbn [fst].
  pose proof (Z.mod_pos_bound (Z.of_nat n) (b - a + 1) ltac:(lia)). lia.
Qed.

Lemma generate_covers_sixty_days_witness :
  exists data g',
    generate_five_days_of_garmin_data nat counter_uniform counter_randint
      61 0%nat
    = Some (Return data, g')
    /\ keys data = map strftime_Ymd covered_days
    /\ NoDup (keys data)
    /\ List.length data = 60%nat
    /\ List.length data <> 5%nat
    /\ Forall (fun m => metrics_in_range m = true) (values data).
Proof.
  apply (generate_covers_sixty_days nat counter_uniform counter_randint
           counter_uniform_contract counter_randint_contract 61 0%nat).
  apply le_n.
Defined.

End GeneratorRun.

(** * Further properties *)

(** ** The training-status handlers: accepted inputs and ordering *)

Section TrainingStatusMore.

Import Garmin_info.

(** X1: [evaluate] returns a result exactly on the scores of the valid
    range and on NaN, which fails neither range test; on NaN the result is
    ['continue'] with NaN echoed as [recovery_hours].  The infinities are
    therefore rejected. *)
Theorem evaluate_accepts_iff (s : float) :
  ((exists r, evaluate s = Return r)
   <-> in_valid_range s = true \/ is_nan s = true)
  /\ (is_nan s = true ->
      evaluate s
      = Return (mkTrainingResponse "continue" s
                  "Training will continue as scheduled.")).
Proof.
  split; [split|].
  - intros [r Hr]. rewrite evaluate_eq in Hr.
    destruct (lt s (of_int 0)) eqn:H0; [discriminate|].
    destruct (gt s (of_int 72)) eqn:H72; [discriminate|].
    destruct (is_nan s) eqn:Hn; [now right|left].
    unfold in_valid_range. apply andb_true_iff. split.
    + now apply lt_false_le_true.
    + now apply lt_false_le_true.
  - intros [H|H].
    + rewrite (evaluate_in_range s H).
      destruct (gt s (of_int 20)); eexists; reflexivity.
    + destruct s; try discriminate. eexists. reflexivity.
  - destruct s; try discriminate. reflexivity.
Qed.

Lemma evaluate_accepts_iff_witness :
  evaluate nan
  = Return (mkTrainingResponse "continue" nan
              "Training will continue as scheduled.")
  /\ exists r, evaluate (S754_zero true) = Return r.
Proof.
  destruct (evaluate_accepts_iff nan) as [_ Hnan].
  destruct (evaluate_accepts_iff (S754_zero true)) as [[_ Hin] _].
  split; [exact (Hnan eq_refl)|]. apply Hin. left. reflexivity.
Defined.

(** X2: the classification is monotone in the score: for two binary64
    scores of the valid range with [s1 <= s2], when [s1] cancels training
    so does [s2], and when [s2] lets training continue so does [s1]. *)
Theorem classification_monotone (s1 s2 : float) (r1 r2 : TrainingResponse) :
  valid s1 = true -> valid s2 = true ->
  in_valid_range s1 = true -> in_valid_range s2 = true ->
  le s1 s2 = true ->
  evaluate s1 = Return r1 -> evaluate s2 = Return r2 ->
  (training_status r1 = "cancelled" -> training_status r2 = "cancelled")
  /\ (training_status r2 = "continue" -> training_status r1 = "continue").
Proof.
  intros V1 V2 R1 R2 Hle E1 E2.
  rewrite (evaluate_in_range s1 R1) in E1.
  rewrite (evaluate_in_range s2 R2) in E2.
  destruct (between_0_72_ulps s1 V1 R1) as (u1 & U1 & _).
  destruct (between_0_72_ulps s2 V2 R2) as (u2 & U2 & _).
  rewrite (le_ulps s1 s2 u1 u2 V1 V2 U1 U2) in Hle.
  assert (U20 : ulps (of_int 20) = Some (20 * 2 ^ 1074))
    by (vm_compute; reflexivity).
  change (gt s1 (of_int 20)) with (lt (of_int 20) s1) in E1.
  change (gt s2 (of_int 20)) with (lt (of_int 20) s2) in E2.
  rewrite (lt_ulps (of_int 20) s1 _ u1 eq_refl V1 U20 U1) in E1.
  rewrite (lt_ulps (of_int 20) s2 _ u2 eq_refl V2 U20 U2) in E2.
  apply Z.leb_le in Hle.
  destruct (Z.ltb_spec (20 * 2 ^ 1074) u1) as [H1|H1];
    destruct (Z.ltb_spec (20 * 2 ^ 1074) u2) as [H2|H2];
    injection E1 as <-; injection E2 as <-; cbn [training_status];
    split; intros H; try reflexivity; try discriminate H.
  all: exfalso; lia.
Qed.

Lemma classification_monotone_witness :
  exists r1 r2,
    evaluate (tenths 206) = Return r1 /\ evaluate (tenths 656) = Return r2
    /\ (training_status r1 = "cancelled" -> training_status r2 = "cancelled")
    /\ (training_status r2 = "continue" -> training_status r1 = "continue").
Proof.
  eexists _, _. split; [reflexivity|]. split; [reflexivity|].
  apply (classification_monotone (tenths 206) (tenths 656));
    reflexivity.
Defined.

(** X3: in every result, whatever the score, the message is the one that
    belongs to the status: the cancellation text with ['cancelled'], the
    continuation text with ['continue']. *)
Theorem status_and_message_agree (s : float) (r : TrainingResponse) :
  evaluate s = Return r ->
  (training_status r = "cancelled"
   <-> message r = "No training tomorrow, all training will be cancelled.")
  /\ (training_status r = "continue"
      <-> message r = "Training will continue as scheduled.").
Proof.
  rewrite evaluate_eq.
  destruct (lt s (of_int 0) || gt s (of_int 72)); [discriminate|].
  destruct (gt s (of_int 20)); intros [= <-]; cbn [training_status message];
    repeat split; intros H; try reflexivity; discriminate H.
Qed.

Lemma status_and_message_agree_witness :
  exists r,
    evaluate nan = Return r
    /\ (training_status r = "continue"
        <-> message r = "Training will continue as scheduled.").
Proof.
  eexists. split; [reflexivity|].
  exact (proj2 (status_and_message_agree nan _ eq_refl)).
Defined.

End TrainingStatusMore.

(** ** The fixture endpoints on any dictionary *)

Section FrontEndMore.

Import PyDict PyDate Front_end.

(** The steps of [get_visualization], one after the other. *)
Lemma get_visualization_run (w : World) (date : string) :
  get_visualization date w =
  match (if contains date w then Some date else nth_error (keys w) 0) with
  | None => (Raise IndexError, w)
  | Some d =>
      match get d w with
      | None => (Raise (KeyError d), w)
      | Some data =>
          match format_date d with
          | None => (Raise ValueError, w)
          | Some shown =>
              match render_options d (keys w) with
              | None => (Raise ValueError, w)
              | Some tags => (Return (render_page shown tags data), w)
              end
          end
      end
  end.
Proof.
  unfold get_visualization, bind, read_SAMPLE_DATA.
  destruct (contains date w); cbn [negb].
  - cbn [ret]. destruct (get date w); cbn [lift ret raise]; [|reflexivity].
    destruct (format_date date); cbn [lift ret raise]; [|reflexivity].
    destruct (render_options date (keys w)); reflexivity.
  - destruct (nth_error (keys w) 0) as [d|]; cbn [lift ret raise];
      [|reflexivity].
    destruct (get d w); cbn [lift ret raise]; [|reflexivity].
    destruct (format_date d); cbn [lift ret raise]; [|reflexivity].
    destruct (render_options d (keys w)); reflexivity.
Qed.

Lemma shown_date_is_key (w : World) (date d : string) :
  (if contains date w then Some date else nth_error (keys w) 0) = Some d ->
  contains d w = true.
Proof.
  destruct (contains date w) eqn:E.
  - now intros [= <-].
  - destruct w as [|[k v] w']; cbn; [discriminate|].
    intros [= <-]. now rewrite String.eqb_refl.
Qed.

Lemma shown_date_exists (w : World) (date : string) :
  w <> [] ->
  exists d,
    (if contains date w then Some date else nth_error (keys w) 0) = Some d.
Proof.
  intros Hw. destruct (contains date w); [eauto|].
  destruct w as [|[k v] w']; [congruence|]. cbn. eauto.
Qed.

Lemma render_options_parses (date : string) (ks : list string) :
  (exists tags, render_options date ks = Some tags)
  <-> Forall (fun k => format_date k <> None) ks.
Proof.
  induction ks as [|k ks IH]; cbn [render_options].
  - split; [constructor|eauto].
  - destruct (format_date k) as [label|] eqn:Ek.
    + destruct (render_options date ks) as [tags|].
      * split; [|eauto]. intros _. constructor; [congruence|].
        apply IH. eauto.
      * split.
        -- intros [tags H]. discriminate H.
        -- intros H. inversion H as [|? ? _ Hks]; subst.
           apply IH in Hks. destruct Hks as [tags Ht]. discriminate Ht.
    + split.
      * intros [tags H]. discriminate H.
      * intros H. inversion H as [|? ? Hk _]; subst. congruence.
Qed.

Lemma render_options_tags (date : string) (ks : list string) :
  forall tags,
    render_options date ks = Some tags ->
    map option_value tags = ks
    /\ Forall (fun o =>
                 format_date (option_value o) = Some (option_label o)
                 /\ option_selected o
                    = if String.eqb (option_value o) date
                      then "selected" else "") tags.
Proof.
  induction ks as [|k ks IH]; cbn [render_options]; intros tags H.
  - injection H as <-. split; constructor.
  - destruct (format_date k) as [label|] eqn:Ek; [|discriminate].
    destruct (render_options date ks) as [tags'|]; [|discriminate].
    injection H as <-. destruct (IH tags' eq_refl) as [Hm Hf].
    split; [cbn; now rewrite Hm|].
    constructor; [cbn; split; [exact Ek|reflexivity]|exact Hf].
Qed.

Lemma unparsed_key_not_all (ks : list string) :
  Exists (fun k => format_date k = None) ks
  <-> ~ Forall (fun k => format_date k <> None) ks.
Proof.
  induction ks as [|k ks IH].
  - split; [intros H; inversion H|intros H; exfalso; apply H; constructor].
  - split.
    + intros H Hall. inversion Hall as [|? ? Hk Hks]; subst.
      inversion H as [? ? Hk'|? ? Hks']; subst; [congruence|].
      now apply IH in Hks'.
    + intros H. destruct (format_date k) eqn:Ek; [|now left].
      right. apply IH. intros Hks. apply H.
      constructor; [congruence|exact Hks].
Qed.

(** The page is returned when the dictionary has a key and all its keys
    are dates of the format. *)
Lemma get_visualization_returns (w : World) (date : string) :
  w <> [] -> Forall (fun k => format_date k <> None) (keys w) ->
  exists p, get_visualization date w = (Return p, w).
Proof.
  intros Hw Hall. rewrite get_visualization_run.
  destruct (shown_date_exists w date Hw) as [d Hd]. rewrite Hd.
  pose proof (shown_date_is_key w date d Hd) as Hk.
  destruct (contains_get d w Hk) as [data ->].
  rewrite Forall_forall in Hall.
  destruct (format_date d) as [shown|] eqn:Ed.
  - destruct (proj2 (render_options_parses d (keys w))) as [tags ->];
      [now apply Forall_forall|]. eauto.
  - exfalso. apply (Hall d); [|exact Ed]. now apply contains_In.
Qed.

Lemma get_visualization_unparsed (w : World) (date : string) :
  w <> [] -> Exists (fun k => format_date k = None) (keys w) ->
  get_visualization date w = (Raise ValueError, w).
Proof.
  intros Hw Hex. apply unparsed_key_not_all in Hex.
  rewrite get_visualization_run.
  destruct (shown_date_exists w date Hw) as [d Hd]. rewrite Hd.
  pose proof (shown_date_is_key w date d Hd) as Hk.
  destruct (contains_get d w Hk) as [data ->].
  destruct (format_date d) as [shown|]; [|reflexivity].
  destruct (render_options d (keys w)) as [tags|] eqn:Et; [|reflexivity].
  exfalso. apply Hex. apply (render_options_parses d). eauto.
Qed.

Lemma keys_parse_or_not (ks : list string) :
  Forall (fun k => format_date k <> None) ks
  \/ Exists (fun k => format_date k = None) ks.
Proof.
  induction ks as [|k ks [IH|IH]].
  - left. constructor.
  - destruct (format_date k) eqn:Ek.
    + left. constructor; [congruence|exact IH].
    + right. now left.
  - right. now right.
Qed.

(** X4: the page endpoint on any dictionary with ASCII keys: it leaves the
    dictionary as it is; it fails with [IndexError] exactly on the empty
    dictionary, with [ValueError] exactly when the dictionary is not empty
    and has a key that is not a date of the format, and returns a page in
    the remaining case. *)
Theorem get_visualization_outcomes (w : World) (date : string) :
  Forall (fun k => ascii_only k = true) (keys w) ->
  snd (get_visualization date w) = w
  /\ (fst (get_visualization date w) = Raise IndexError <-> w = [])
  /\ (fst (get_visualization date w) = Raise ValueError
      <-> w <> [] /\ Exists (fun k => format_date k = None) (keys w))
  /\ ((exists p, fst (get_visualization date w) = Return p)
      <-> w <> [] /\ Forall (fun k => format_date k <> None) (keys w)).
Proof.
  intros _. destruct w as [|kv w'].
  - cbn. split; [reflexivity|]. split; [tauto|]. split.
    + split; [discriminate|]. intros [H _]. congruence.
    + split; [intros [p H]; discriminate H|]. intros [H _]. congruence.
  - set (w := kv :: w').
    assert (Hw : w <> []) by discriminate.
    destruct (keys_parse_or_not (keys w)) as [Hall|Hex].
    + destruct (get_visualization_returns w date Hw Hall) as [p Hp].
      rewrite Hp. cbn [fst snd]. split; [reflexivity|].
      split; [split; [discriminate|intros H; contradiction]|]. split.
      * split; [discriminate|]. intros [_ Hex].
        apply unparsed_key_not_all in Hex. contradiction.
      * split; [intros _; now split|intros _; eauto].
    + rewrite (get_visualization_unparsed w date Hw Hex). cbn [fst snd].
      split; [reflexivity|].
      split; [split; [discriminate|intros H; contradiction]|]. split.
      * split; [intros _; now split|reflexivity].
      * split; [intros [p H]; discriminate H|]. intros [_ Hall].
        apply unparsed_key_not_all in Hex. contradiction.
Qed.

Lemma get_visualization_outcomes_witness :
  fst (get_visualization "2023-01-01" []) = Raise IndexError
  /\ fst (get_visualization "2023-01-01"
            [("yesterday", mkmetrics (tenths 91) (tenths 718) (tenths 81) 26)])
     = Raise ValueError
  /\ exists p, fst (get_visualization "yesterday" SAMPLE_DATA) = Return p.
Proof.
  split; [|split].
  - apply (get_visualization_outcomes [] "2023-01-01"); [constructor|].
    reflexivity.
  - apply (get_visualization_outcomes
             [("yesterday", mkmetrics (tenths 91) (tenths 718) (tenths 81) 26)]
             "2023-01-01").
    + repeat constructor.
    + split; [discriminate|]. left. reflexivity.
  - apply (get_visualization_outcomes SAMPLE_DATA "yesterday").
    + repeat constructor.
    + split; [discriminate|].
      repeat (constructor; [discriminate|]). constructor.
Defined.

(** What a returned page is made of. *)
Lemma returned_page (w : World) (date : string) (p : page) :
  fst (get_visualization date w) = Return p ->
  exists d data shown tags,
    (if contains date w then Some date else nth_error (keys w) 0) = Some d
    /\ get d w = Some data
    /\ format_date d = Some shown
    /\ render_options d (keys w) = Some tags
    /\ p = render_page shown tags data.
Proof.
  rewrite get_visualization_run.
  destruct (if contains date w then Some date else nth_error (keys w) 0)
    as [d|]; [|discriminate].
  destruct (get d w) as [data|] eqn:Eg; [|discriminate].
  destruct (format_date d) as [shown|] eqn:Ef; [|discriminate].
  destruct (render_options d (keys w)) as [tags|] eqn:Et; [|discriminate].
  cbn [fst]. intros [= <-]. exists d, data, shown, tags.
  repeat split; assumption.
Qed.

Lemma filter_selected_none (d : string) (tags : list option_tag) :
  ~ In d (map option_value tags) ->
  Forall (fun o =>
            option_selected o
            = if String.eqb (option_value o) d then "selected" else "") tags ->
  filter (fun o => String.eqb (option_selected o) "selected") tags = [].
Proof.
  induction tags as [|o tags IH]; cbn [filter map]; intros Hd Hf;
    [reflexivity|].
  inversion Hf as [|? ? Ho Hf']; subst.
  destruct (String.eqb_spec (option_value o) d) as [Heq|Hne].
  - exfalso. apply Hd. now left.
  - rewrite Ho. cbn. apply IH; [|exact Hf']. intros H. apply Hd. now right.
Qed.

Lemma filter_selected_one (d : string) (tags : list option_tag) :
  NoDup (map option_value tags) -> In d (map option_value tags) ->
  Forall (fun o =>
            option_selected o
            = if String.eqb (option_value o) d then "selected" else "") tags ->
  exists o,
    filter (fun o => String.eqb (option_selected o) "selected") tags = [o]
    /\ In o tags /\ option_value o = d.
Proof.
  induction tags as [|o tags IH]; cbn [filter map]; intros Hnd Hd Hf;
    [destruct Hd|].
  inversion Hf as [|? ? Ho Hf']; subst.
  inversion Hnd as [|? ? Hnotin Hnd']; subst.
  destruct (String.eqb_spec (option_value o) d) as [Heq|Hne].
  - rewrite Ho. cbn. exists o. rewrite filter_selected_none with (d := d).
    + repeat split; [now left|exact Heq].
    + now rewrite <- Heq.
    + exact Hf'.
  - rewrite Ho. cbn. destruct Hd as [Hd|Hd]; [contradiction|].
    destruct (IH Hnd' Hd Hf') as (o' & Hfil & Hin & Hval).
    exists o'. repeat split; [exact Hfil|now right|exact Hval].
Qed.

(** X5: in a page returned on a dictionary (whose keys are distinct, as
    those of a Python [dict] are), the options list the keys of the
    dictionary in their order, exactly one option is selected, and it is the
    one of the day on display: its value is a key, the requested date when
    that is a key and the first key otherwise, and its label is the date
    shown as the subtitle. *)
Theorem page_has_one_selected_option (w : World) (date : string) (p : page) :
  NoDup (keys w) ->
  fst (get_visualization date w) = Return p ->
  map option_value (options p) = keys w
  /\ exists o,
       selected_options p = [o]
       /\ option_label o = display_date p
       /\ In (option_value o) (keys w)
       /\ (In date (keys w) -> option_value o = date)
       /\ (~ In date (keys w) ->
           nth_error (keys w) 0 = Some (option_value o)).
Proof.
  intros Hnd Hp.
  destruct (returned_page w date p Hp)
    as (d & data & shown & tags & Hd & Hget & Hshown & Htags & ->).
  destruct (render_options_tags d (keys w) tags Htags) as [Hmap Hf].
  pose proof (shown_date_is_key w date d Hd) as Hk.
  apply contains_In in Hk.
  cbn [render_page options display_date]. split; [exact Hmap|].
  unfold selected_options. cbn [render_page options].
  destruct (filter_selected_one d tags) as (o & Hfil & Hin & Hval).
  - now rewrite Hmap.
  - now rewrite Hmap.
  - eapply Forall_impl; [|exact Hf]. now intros a [_ Ha].
  - exists o. split; [exact Hfil|]. split; [|split; [|split]].
    + rewrite Forall_forall in Hf. destruct (Hf o Hin) as [Hl _].
      rewrite Hval in Hl. congruence.
    + now rewrite Hval.
    + intros Hdate. apply contains_In in Hdate. rewrite Hdate in Hd.
      rewrite Hval. congruence.
    + intros Hdate. rewrite Hval.
      destruct (contains date w) eqn:E; [|exact Hd].
      apply contains_In in E. contradiction.
Qed.

Lemma page_has_one_selected_option_witness :
  exists p o,
    fst (get_visualization "2023-01-04" SAMPLE_DATA) = Return p
    /\ selected_options p = [o]
    /\ option_label o = display_date p.
Proof.
  assert (Hnd : NoDup (keys SAMPLE_DATA)).
  { cbn. repeat (constructor;
                 [cbn; intros H;
                  repeat (destruct H as [H|H]; [discriminate H|]); exact H|]).
    constructor. }
  destruct (page_has_one_selected_option SAMPLE_DATA "2023-01-04" _
              Hnd eq_refl) as (_ & o & Hsel & Hlabel & _).
  eexists _, o. split; [reflexivity|]. split; [exact Hsel|exact Hlabel].
Defined.

(** X6: the page and the lookup endpoint agree: when the requested date is
    a key, the four values on the cards of the page are the four metrics
    that [get_data_for_date] returns for the date. *)
Theorem page_shows_the_looked_up_data (w : World) (date : string) (p : page) :
  In date (keys w) ->
  fst (get_visualization date w) = Return p ->
  exists data,
    fst (get_data_for_date date w) = Return (mkFitnessDataResponse date data)
    /\ card_value (recovery_card p) = recovery_score data
    /\ card_value (battery_card p) = body_battery data
    /\ card_value (sleep_card p) = sleep_hours data
    /\ card_value (stress_card p) = stress_level data.
Proof.
  intros Hin Hp. apply contains_In in Hin.
  destruct (returned_page w date p Hp)
    as (d & data & shown & tags & Hd & Hget & _ & _ & ->).
  rewrite Hin in Hd. injection Hd as <-.
  exists data. split; [|repeat split].
  unfold get_data_for_date, bind, read_SAMPLE_DATA.
  rewrite Hin, Hget. reflexivity.
Qed.

Lemma page_shows_the_looked_up_data_witness :
  exists p data,
    fst (get_visualization "2023-01-07" SAMPLE_DATA) = Return p
    /\ fst (get_data_for_date "2023-01-07" SAMPLE_DATA)
       = Return (mkFitnessDataResponse "2023-01-07" data)
    /\ card_value (recovery_card p) = recovery_score data.
Proof.
  destruct (page_shows_the_looked_up_data SAMPLE_DATA "2023-01-07" _
              ltac:(cbn; tauto) eq_refl) as (data & Hdata & Hr & _).
  eexists _, data. split; [reflexivity|]. split; [exact Hdata|exact Hr].
Defined.

(** X7: on any dictionary that is not empty, a date that is not a key gets
    the response of the first key: same outcome, same dictionary. *)
Theorem unknown_date_falls_back_to_first_key
    (k : string) (v : metrics) (w' : World) (date : string) :
  ~ In date (keys ((k, v) :: w')) ->
  get_visualization date ((k, v) :: w')
  = get_visualization k ((k, v) :: w').
Proof.
  intros Hnot. rewrite !get_visualization_run.
  assert (Hc : contains date ((k, v) :: w') = false).
  { destruct (contains date ((k, v) :: w')) eqn:E; [|reflexivity].
    apply contains_In in E. contradiction. }
  rewrite Hc. cbn [contains keys map fst nth_error].
  now rewrite String.eqb_refl.
Qed.

Lemma unknown_date_falls_back_to_first_key_witness :
  get_visualization "2023-02-30" SAMPLE_DATA
  = get_visualization "2023-01-01" SAMPLE_DATA.
Proof.
  apply (unknown_date_falls_back_to_first_key "2023-01-01"
           (mkmetrics (tenths 91) (tenths 718) (tenths 81) 26)
           (tl SAMPLE_DATA) "2023-02-30").
  cbn. intros H. repeat (destruct H as [H|H]; [discriminate H|]). exact H.
Defined.

(** X8: on every returned page the colour class of a card and the text
    under it are chosen alike, although the source writes their conditions
    twice: ['good'] goes with the best text, ['medium'] with the middle one
    and the empty class with the worst one, on each of the four cards. *)
Theorem page_cards_class_and_text_agree
    (w : World) (date : string) (p : page) :
  fst (get_visualization date w) = Return p ->
  ((card_class (recovery_card p) = "good"
    <-> card_desc (recovery_card p) = "Excellent recovery")
   /\ (card_class (recovery_card p) = "medium"
       <-> card_desc (recovery_card p) = "Average recovery")
   /\ (card_class (recovery_card p) = ""
       <-> card_desc (recovery_card p) = "Poor recovery"))
  /\ ((card_class (battery_card p) = "good"
       <-> card_desc (battery_card p) = "High energy levels")
      /\ (card_class (battery_card p) = "medium"
          <-> card_desc (battery_card p) = "Moderate energy")
      /\ (card_class (battery_card p) = ""
          <-> card_desc (battery_card p) = "Low energy levels"))
  /\ ((card_class (sleep_card p) = "good"
       <-> card_desc (sleep_card p) = "Well rested")
      /\ (card_class (sleep_card p) = "medium"
          <-> card_desc (sleep_card p) = "Adequate sleep")
      /\ (card_class (sleep_card p) = ""
          <-> card_desc (sleep_card p) = "Sleep deficit"))
  /\ ((card_class (stress_card p) = "good"
       <-> card_desc (stress_card p) = "Low stress")
      /\ (card_class (stress_card p) = "medium"
          <-> card_desc (stress_card p) = "Moderate stress")
      /\ (card_class (stress_card p) = ""
          <-> card_desc (stress_card p) = "High stress")).
Proof.
  intros Hp.
  destruct (returned_page w date p Hp)
    as (d & data & shown & tags & _ & _ & _ & _ & ->).
  cbn [render_page recovery_card battery_card sleep_card stress_card].
  unfold float_card, stress_card_of. cbn [card_class card_desc].
  repeat split;
    repeat match goal with
           | |- context [if ?b then _ else _] => destruct b
           end;
    intros H; try reflexivity; discriminate H.
Qed.

Lemma page_cards_class_and_text_agree_witness :
  exists p,
    fst (get_visualization "2023-01-03" SAMPLE_DATA) = Return p
    /\ (card_class (battery_card p) = ""
        <-> card_desc (battery_card p) = "Low energy levels").
Proof.
  eexists. split; [reflexivity|].
  destruct (page_cards_class_and_text_agree SAMPLE_DATA "2023-01-03" _
              eq_refl) as (_ & (_ & _ & H) & _).
  exact H.
Defined.

(** X9: [get_dates] returns the keys in their order and leaves the
    dictionary as it is; the dates it lists are exactly those that
    [get_data_for_date] serves without the 404 error, and exactly the values
    of the options of every page that [get_visualization] returns. *)
Theorem listed_dates_are_served_and_offered (w : World) :
  exists ds,
    get_dates w = (Return ds, w)
    /\ ds = keys w
    /\ (forall date,
          In date ds
          <-> exists data,
                fst (get_data_for_date date w)
                = Return (mkFitnessDataResponse date data))
    /\ (forall date p,
          fst (get_visualization date w) = Return p ->
          map option_value (options p) = ds).
Proof.
  exists (keys w). split; [reflexivity|]. split; [reflexivity|]. split.
  - intros date. unfold get_data_for_date, bind, read_SAMPLE_DATA.
    destruct (contains date w) eqn:E; cbn [negb].
    + pose proof (proj1 (contains_In date w) E) as Hin.
      destruct (contains_get date w E) as [data ->]. cbn.
      split; [eauto|tauto].
    + assert (Hnot : ~ In date (keys w)).
      { intros H. apply contains_In in H. congruence. }
      cbn. split; [tauto|]. intros [data H]. discriminate H.
  - intros date p Hp.
    destruct (returned_page w date p Hp)
      as (d & data & shown & tags & _ & _ & _ & Htags & ->).
    exact (proj1 (render_options_tags d (keys w) tags Htags)).
Qed.

Lemma listed_dates_are_served_and_offered_witness :
  exists ds p,
    get_dates SAMPLE_DATA = (Return ds, SAMPLE_DATA)
    /\ fst (get_visualization "2023-01-02" SAMPLE_DATA) = Return p
    /\ map option_value (options p) = ds.
Proof.
  destruct (listed_dates_are_served_and_offered SAMPLE_DATA)
    as (ds & Hds & _ & _ & Hopt).
  exists ds. eexists. split; [exact Hds|]. split; [reflexivity|].
  apply (Hopt "2023-01-02"). reflexivity.
Defined.

End FrontEndMore.

(** ** The generated fixture and its consumers *)

Section GeneratorMore.

Import PyDict PyDate Generate_data.

Lemma round1_one_decimal (lo hi : Z) (x : float) :
  0 <= lo ->
  ulps (of_int lo) = Some (lo * 2 ^ 1074) ->
  ulps (of_int hi) = Some (hi * 2 ^ 1074) ->
  valid (of_int lo) = true -> valid (of_int hi) = true ->
  valid x = true -> between lo hi x = true ->
  one_decimal lo hi (round1 x).
Proof.
  intros Hlo Ul Uh Vl Vh Vx Hb.
  destruct (between_ulps lo hi x Ul Uh Vl Vh Vx Hb) as (u & Hu & Hr).
  destruct (round1_tenths x lo hi u Vx Hu Hlo Hr) as (s & d & Hx & Hd & Hs).
  now exists s, d.
Qed.

Lemma covered_days_parse :
  Forall (fun k => Front_end.format_date k <> None)
         (map strftime_Ymd covered_days).
Proof.
  assert (H : forallb (fun k => match Front_end.format_date k with
                                | Some _ => true
                                | None => false
                                end)
                      (map strftime_Ymd covered_days) = true)
    by (vm_compute; reflexivity).
  rewrite forallb_forall in H. apply Forall_forall. intros k Hk.
  specialize (H k Hk). destruct (Front_end.format_date k); congruence.
Qed.

Variable RNG : Type.
Variable uniform : float -> float -> RNG -> float * RNG.
Variable randint : Z -> Z -> RNG -> Z * RNG.
Hypothesis uniform_ok : uniform_contract RNG uniform.
Hypothesis randint_ok : randint_contract RNG randint.

(** The loop, for any property [P] that the entry of one day has whatever
    the draws are. *)
Lemma while_loop_trace_with (P : metrics -> Prop) :
  (forall u1 u2 u3 n,
      valid u1 = true -> between 0 72 u1 = true ->
      valid u2 = true -> between 0 100 u2 = true ->
      valid u3 = true -> between 3 9 u3 = true ->
      0 <= n <= 100 ->
      P (mkmetrics (round1 u1) (round1 u2) (round1 u3) n)) ->
  forall fuel cur ds, days_from fuel cur = Some ds ->
  forall (data_dict : dict metrics) (g : RNG),
  exists ms g',
    List.length ms = List.length ds
    /\ Forall P ms
    /\ while_loop RNG uniform randint fuel cur data_dict g
       = Some (Return
                 (fold_left (fun d p => set (fst p) (snd p) d)
                            (combine (map strftime_Ymd ds) ms) data_dict),
               g').
Proof.
  intros HP.
  induction fuel as [|fuel IH]; intros cur ds Hds data_dict g;
    [discriminate|].
  cbn [days_from] in Hds. cbn [while_loop].
  destruct (date_le cur end_date).
  - destruct (add_one_day cur) as [next|]; [|discriminate].
    destruct (days_from fuel next) as [ds'|] eqn:E; [|discriminate].
    injection Hds as <-.
    pose proof (uniform_between RNG uniform uniform_ok 0 72 g
                  eq_refl eq_refl eq_refl) as [V1 B1].
    destruct (uniform (of_int 0) (of_int 72) g) as [u1 g1].
    pose proof (uniform_between RNG uniform uniform_ok 0 100 g1
                  eq_refl eq_refl eq_refl) as [V2 B2].
    destruct (uniform (of_int 0) (of_int 100) g1) as [u2 g2].
    pose proof (uniform_between RNG uniform uniform_ok 3 9 g2
                  eq_refl eq_refl eq_refl) as [V3 B3].
    destruct (uniform (of_int 3) (of_int 9) g2) as [u3 g3].
    pose proof (randint_ok 0 100 g3 ltac:(lia)) as B4.
    destruct (randint 0 100 g3) as [n g4].
    cbn [fst] in *.
    destruct (IH next ds' E
                (set (strftime_Ymd cur)
                     (mkmetrics (round1 u1) (round1 u2) (round1 u3) n)
                     data_dict) g4)
      as (ms & g' & Hlen & Hall & Hrun).
    exists (mkmetrics (round1 u1) (round1 u2) (round1 u3) n :: ms), g'.
    split; [cbn; now rewrite Hlen|]. split; [|exact Hrun].
    constructor; [|exact Hall]. now apply HP.
  - injection Hds as <-. exists [], g. repeat split. constructor.
Qed.

(** The run of the generator: the covered days zipped with one entry
    each. *)
Lemma generate_run_with (P : metrics -> Prop) (fuel : nat) (g : RNG) :
  (forall u1 u2 u3 n,
      valid u1 = true -> between 0 72 u1 = true ->
      valid u2 = true -> between 0 100 u2 = true ->
      valid u3 = true -> between 3 9 u3 = true ->
      0 <= n <= 100 ->
      P (mkmetrics (round1 u1) (round1 u2) (round1 u3) n)) ->
  (61 <= fuel)%nat ->
  exists ms g',
    List.length ms = List.length (map strftime_Ymd covered_days)
    /\ Forall P ms
    /\ generate_five_days_of_garmin_data RNG uniform randint fuel g
       = Some (Return (combine (map strftime_Ymd covered_days) ms), g').
Proof.
  intros HP Hfuel. unfold generate_five_days_of_garmin_data.
  destruct (while_loop_trace_with P HP fuel start_date covered_days
              (days_from_covered fuel Hfuel) [] g)
    as (ms & g' & Hlen & Hall & Hrun).
  assert (Hlen' : List.length ms
                  = List.length (map strftime_Ymd covered_days))
    by now rewrite length_map.
  exists ms, g'. split; [exact Hlen'|]. split; [exact Hall|].
  rewrite Hrun. pose proof covered_days_NoDup as Hnd.
  pose proof (keys_combine _ _ Hlen') as Hkeys.
  rewrite fold_set_fresh
    by (change (NoDup (keys (combine (map strftime_Ymd covered_days) ms)));
        now rewrite Hkeys).
  reflexivity.
Qed.

(** X10: every float the generator stores has one decimal: the recovery
    score is the binary64 nearest to [d / 10] for an integer [d] from 0 to
    720, the body battery for a [d] from 0 to 1000 and the sleep hours for a
    [d] from 30 to 90. *)
Theorem generated_values_have_one_decimal (fuel : nat) (g : RNG) :
  (61 <= fuel)%nat ->
  exists data g',
    generate_five_days_of_garmin_data RNG uniform randint fuel g
    = Some (Return data, g')
    /\ Forall (fun m =>
                 one_decimal 0 72 (recovery_score m)
                 /\ one_decimal 0 100 (body_battery m)
                 /\ one_decimal 3 9 (sleep_hours m)) (values data).
Proof.
  intros Hfuel.
  destruct (generate_run_with
              (fun m => one_decimal 0 72 (recovery_score m)
                        /\ one_decimal 0 100 (body_battery m)
                        /\ one_decimal 3 9 (sleep_hours m)) fuel g)
    as (ms & g' & Hlen & Hall & Hrun); [|exact Hfuel|].
  - intros u1 u2 u3 n V1 B1 V2 B2 V3 B3 _.
    cbn [recovery_score body_battery sleep_hours].
    repeat split; apply round1_one_decimal;
      try assumption; try (vm_compute; reflexivity); lia.
  - eexists _, g'. split; [exact Hrun|].
    now rewrite values_combine.
Qed.

(** X11: every recovery score the generator stores is accepted by the
    training-status handler, which echoes it. *)
Theorem generated_scores_are_accepted (fuel : nat) (g : RNG) :
  (61 <= fuel)%nat ->
  exists data g',
    generate_five_days_of_garmin_data RNG uniform randint fuel g
    = Some (Return data, g')
    /\ Forall (fun m =>
                 exists r,
                   Garmin_info.evaluate (recovery_score m) = Return r
                   /\ Garmin_info.recovery_hours r = recovery_score m)
              (values data).
Proof.
  intros Hfuel.
  destruct (generate_run_with
              (fun m => Garmin_info.in_valid_range (recovery_score m) = true)
              fuel g)
    as (ms & g' & Hlen & Hall & Hrun); [|exact Hfuel|].
  - intros u1 u2 u3 n V1 B1 _ _ _ _ _. cbn [recovery_score].
    now apply round1_between_0_72.
  - eexists _, g'. split; [exact Hrun|].
    rewrite values_combine by exact Hlen.
    eapply Forall_impl; [|exact Hall]. intros m Hm. cbn beta in Hm.
    rewrite (evaluate_in_range _ Hm).
    destruct (gt (recovery_score m) (of_int 20)); eexists;
      split; reflexivity.
Qed.

(** X12: the dictionary the generator returns can be served by the fixture
    endpoints: the page endpoint returns a page on it for every date
    string, and the lookup endpoint returns, for each covered day, an entry
    whose four metrics are in range. *)
Theorem generated_fixture_is_servable (fuel : nat) (g : RNG) :
  (61 <= fuel)%nat ->
  exists data g',
    generate_five_days_of_garmin_data RNG uniform randint fuel g
    = Some (Return data, g')
    /\ (forall date,
          exists p, Front_end.get_visualization date data = (Return p, data))
    /\ (forall day, In day covered_days ->
          exists m,
            Front_end.get_data_for_date (strftime_Ymd day) data
            = (Return (Front_end.mkFitnessDataResponse
                         (strftime_Ymd day) m), data)
            /\ metrics_in_range m = true).
Proof.
  intros Hfuel.
  destruct (generate_run_with (fun m => metrics_in_range m = true) fuel g)
    as (ms & g' & Hlen & Hall & Hrun); [|exact Hfuel|].
  - intros u1 u2 u3 n V1 B1 V2 B2 V3 B3 [Hn Hn'].
    unfold metrics_in_range.
    cbn [recovery_score body_battery sleep_hours stress_level].
    rewrite (round1_between_0_72 u1 V1 B1).
    rewrite (round1_between_0_100 u2 V2 B2).
    rewrite (round1_between_3_9 u3 V3 B3).
    apply Z.leb_le in Hn, Hn'. now rewrite Hn, Hn'.
  - set (data := combine (map strftime_Ymd covered_days) ms) in *.
    pose proof (keys_combine _ _ Hlen : keys data = _) as Hkeys.
    pose proof (values_combine _ _ Hlen : values data = _) as Hvalues.
    exists data, g'. split; [exact Hrun|]. split.
    + intros date. apply get_visualization_returns.
      * intros Hnil. rewrite Hnil in Hkeys. discriminate Hkeys.
      * rewrite Hkeys. exact covered_days_parse.
    + intros day Hday.
      assert (Hin : In (strftime_Ymd day) (keys data))
        by (rewrite Hkeys; now apply in_map).
      apply contains_In in Hin.
      destruct (contains_get _ _ Hin) as [m Hm]. exists m. split.
      * unfold Front_end.get_data_for_date, bind, Front_end.read_SAMPLE_DATA.
        rewrite Hin, Hm. reflexivity.
      * apply get_In in Hm.
        assert (Hmv : In m (values data))
          by (apply (in_map snd) in Hm; exact Hm).
        rewrite Hvalues in Hmv. rewrite Forall_forall in Hall.
        now apply Hall.
Qed.

End GeneratorMore.

(** ** Date texts: written by the generator, read by the page *)

Section DateText.

Import PyDate.

Lemma digit_value_digit (n : Z) : digit_value (digit n) = Some (n mod 10).
Proof.
  unfold digit. pose proof (Z.mod_pos_bound n 10 ltac:(lia)) as Hr.
  set (r := n mod 10) in *. clearbody r.
  assert (H : In r [0; 1; 2; 3; 4; 5; 6; 7; 8; 9]) by (cbn; lia).
  cbn in H. repeat (destruct H as [<-|H]; [reflexivity|]). destruct H.
Qed.

Lemma year_digits (y : Z) :
  0 <= y <= 9999 ->
  1000 * ((y / 1000) mod 10) + 100 * ((y / 100) mod 10)
  + 10 * ((y / 10) mod 10) + y mod 10 = y.
Proof.
  intros Hy. Z.div_mod_to_equations. lia.
Qed.

Lemma year_text_four_digits (y : Z) :
  1000 <= y -> year_text y = four_digits y.
Proof.
  intros Hy. unfold year_text.
  destruct (Z.ltb_spec y 10); [lia|].
  destruct (Z.ltb_spec y 100); [lia|].
  destruct (Z.ltb_spec y 1000); [lia|reflexivity].
Qed.

Lemma days_in_month_le (y m : Z) : days_in_month y m <= 31.
Proof.
  unfold days_in_month.
  repeat match goal with
         | |- context [match ?x with _ => _ end] => destruct x
         end; lia.
Qed.

(** X13: a date of a year from 1000 on, written with ["%Y-%m-%d"] as the
    generator writes its keys, is read back as the same date with the same
    format, as the page reads its keys; the page then shows it as month
    name, day and year. *)
Theorem strptime_reads_back_strftime (y m d : Z) (dt : date) :
  1000 <= y ->
  make_date y m d = Some dt ->
  strptime_Ymd (strftime_Ymd dt) = Some dt
  /\ Front_end.format_date (strftime_Ymd dt) = Some (strftime_BdY dt).
Proof.
  intros Hy Hdt.
  assert (Hread : strptime_Ymd (strftime_Ymd dt) = Some dt).
  { pose proof Hdt as Hb. unfold make_date in Hb.
    destruct ((1 <=? y) && (y <=? 9999) && (1 <=? m) && (m <=? 12)
              && (1 <=? d) && (d <=? days_in_month y m)) eqn:E;
      [|discriminate].
    injection Hb as <-.
    repeat (apply andb_true_iff in E as [E ?]).
    repeat match goal with
           | H : (_ <=? _) = true |- _ => apply Z.leb_le in H
           end.
    pose proof (days_in_month_le y m) as Hdm.
    pose proof (year_digits y ltac:(lia)) as Hyd.
    pose proof (digit_value_digit (y / 1000)) as Ha.
    pose proof (digit_value_digit (y / 100)) as Hb.
    pose proof (digit_value_digit (y / 10)) as Hc.
    pose proof (digit_value_digit y) as He.
    unfold strftime_Ymd. cbn [year month day].
    rewrite (year_text_four_digits y Hy). unfold four_digits.
    unfold two_digits at 1.
    generalize dependent (digit (y / 1000)).
    generalize dependent (digit (y / 100)).
    generalize dependent (digit (y / 10)).
    generalize dependent (digit y).
    intros e He c Hc b Hb a Ha.
    assert (Hm : In m [1; 2; 3; 4; 5; 6; 7; 8; 9; 10; 11; 12])
      by (cbn; lia).
    assert (Hd : In d [1; 2; 3; 4; 5; 6; 7; 8; 9; 10;
                       11; 12; 13; 14; 15; 16; 17; 18; 19; 20;
                       21; 22; 23; 24; 25; 26; 27; 28; 29; 30; 31])
      by (cbn; lia).
    cbn in Hm, Hd.
    repeat (destruct Hm as [<-|Hm]); try contradiction;
      repeat (destruct Hd as [<-|Hd]); try contradiction;
      cbn -[make_date Z.mul Z.add Z.div Z.modulo];
      rewrite Ha, Hb, Hc, He, Hyd; exact Hdt. }
  split; [exact Hread|].
  unfold Front_end.format_date. now rewrite Hread.
Qed.

Lemma strptime_reads_back_strftime_witness :
  strptime_Ymd (strftime_Ymd (mkdate 2024 2 29)) = Some (mkdate 2024 2 29)
  /\ Front_end.format_date (strftime_Ymd (mkdate 2024 2 29))
     = Some "February 29, 2024".
Proof.
  apply (strptime_reads_back_strftime 2024 2 29); [lia|reflexivity].
Defined.

End DateText.

(** ** The generator run on the counting instance of [random] *)

Section GeneratorMoreRun.

Import PyDict PyDate Generate_data.

Lemma generated_values_have_one_decimal_witness :
  exists data g',
    generate_five_days_of_garmin_data nat counter_uniform counter_randint
      61 0%nat
    = Some (Return data, g')
    /\ Forall (fun m =>
                 one_decimal 0 72 (recovery_score m)
                 /\ one_decimal 0 100 (body_battery m)
                 /\ one_decimal 3 9 (sleep_hours m)) (values data).
Proof.
  apply (generated_values_have_one_decimal nat counter_uniform
           counter_randint counter_uniform_contract
           counter_randint_contract 61 0%nat).
  apply le_n.
Defined.

Lemma generated_scores_are_accepted_witness :
  exists data g',
    generate_five_days_of_garmin_data nat counter_uniform counter_randint
      61 0%nat
    = Some (Return data, g')
    /\ Forall (fun m =>
                 exists r,
                   Garmin_info.evaluate (recovery_score m) = Return r
                   /\ Garmin_info.recovery_hours r = recovery_score m)
              (values data).
Proof.
  apply (generated_scores_are_accepted nat counter_uniform
           counter_randint counter_uniform_contract
           counter_randint_contract 61 0%nat).
  apply le_n.
Defined.

Lemma generated_fixture_is_servable_witness :
  exists data g',
    generate_five_days_of_garmin_data nat counter_uniform counter_randint
      61 0%nat
    = Some (Return data, g')
    /\ (forall date,
          exists p, Front_end.get_visualization date data = (Return p, data))
    /\ (forall day, In day covered_days ->
          exists m,
            Front_end.get_data_for_date (strftime_Ymd day) data
            = (Return (Front_end.mkFitnessDataResponse
                         (strftime_Ymd day) m), data)
            /\ metrics_in_range m = true).
Proof.
  apply (generated_fixture_is_servable nat counter_uniform
           counter_randint counter_uniform_contract
           counter_randint_contract 61 0%nat).
  apply le_n.
Defined.

End GeneratorMoreRun.
